(** * readcon-core: the C++ wrapper layer of [readcon-core.hpp]

    A shallow embedding of the header-only C++ wrapper around the
    parse/format engine.  The engine is reached through the C functions
    declared in [readcon-core.h]; that header is not part of the wrapper, so the
    engine is taken as a parameter: a state type and one transition per C
    function.  Every wrapper method is a computation in a state-and-exception
    monad over the object it is called on and a [World] that holds the engine
    state, the sequence of C calls made so far and the C++ free store. *)

From Stdlib Require Import List String ZArith NArith Bool Lia.
Import ListNotations.
Local Open Scope string_scope.
Local Open Scope list_scope.

(** ** Plain data *)

(** A [double] is only ever copied by the wrapper; it is carried as its
    64-bit IEEE-754 pattern. *)
Definition double : Type := Z.
Definition uint64_t : Type := N.
Definition uint8_t : Type := N.
Definition size_t : Type := N.
Definition c_int : Type := Z.

(** [std::array<double, 3>] and [std::array<std::string, 2>]. *)
Definition array3 : Type := (double * double * double)%type.
Definition lines2 : Type := (string * string)%type.

(** Opaque engine handles.  A C pointer is an [option]: [None] is [nullptr]. *)
Definition CConFrameIterator : Type := positive.
Definition RKRConFrame : Type := positive.
Definition RKRConFrameWriter : Type := positive.
Definition RKRConFrameBuilder : Type := positive.

(** [struct Atom]. *)
Record Atom : Type := mkAtom {
  atomic_number : uint64_t;
  x : double;
  y : double;
  z : double;
  atom_id : uint64_t;
  mass : double;
  is_fixed : bool;
  vx : double;
  vy : double;
  vz : double;
  has_velocity : bool
}.

(** [CAtom] and [CFrame] of the C interface, with the fields [cache_data]
    reads.  The pair [atoms]/[num_atoms] of the C struct is one list. *)
Record CAtom : Type := mkCAtom {
  c_atomic_number : uint64_t;
  c_x : double;
  c_y : double;
  c_z : double;
  c_atom_id : uint64_t;
  c_mass : double;
  c_is_fixed : bool;
  c_vx : double;
  c_vy : double;
  c_vz : double;
  c_has_velocity : bool
}.

Record CFrame : Type := mkCFrame {
  c_cell : array3;
  c_angles : array3;
  c_atoms : list CAtom;
  c_has_velocities : bool
}.

(** ** The engine boundary *)

(** One constructor per C function the wrapper calls, with its arguments. *)
Inductive call : Type :=
| Call_read_con_file_iterator (path : string)
| Call_con_frame_iterator_next (it : option CConFrameIterator)
| Call_free_con_frame_iterator (it : CConFrameIterator)
| Call_rkr_frame_to_c_frame (h : option RKRConFrame)
| Call_free_c_frame (cf : CFrame)
| Call_rkr_frame_get_header_line_cpp
    (h : option RKRConFrame) (is_prebox : bool) (index : size_t)
| Call_rkr_free_string (s : string)
| Call_free_rkr_frame (h : RKRConFrame)
| Call_create_writer_from_path_c (path : string)
| Call_create_writer_from_path_with_precision_c (path : string) (precision : uint8_t)
| Call_rkr_writer_extend
    (w : option RKRConFrameWriter) (handles : list (option RKRConFrame))
| Call_free_rkr_writer (w : RKRConFrameWriter)
| Call_rkr_frame_new (cell angles : array3) (prebox postbox : lines2)
| Call_rkr_frame_add_atom
    (b : option RKRConFrameBuilder) (symbol : string) (px py pz : double)
    (fixed : bool) (id : uint64_t) (m : double)
| Call_rkr_frame_add_atom_with_velocity
    (b : option RKRConFrameBuilder) (symbol : string) (px py pz : double)
    (fixed : bool) (id : uint64_t) (m : double) (pvx pvy pvz : double)
| Call_rkr_frame_builder_build (b : option RKRConFrameBuilder)
| Call_free_rkr_frame_builder (b : RKRConFrameBuilder).

(** What a call returned. *)
Inductive reply : Type :=
| R_void
| R_iterator (p : option CConFrameIterator)
| R_frame (p : option RKRConFrame)
| R_c_frame (p : option CFrame)
| R_string (p : option string)
| R_writer (p : option RKRConFrameWriter)
| R_builder (p : option RKRConFrameBuilder)
| R_int (rc : c_int).

Definition event : Type := (call * reply)%type.

(** The engine: any state machine that answers those calls. *)
Record Engine : Type := mkEngine {
  St : Type;
  on_read_con_file_iterator : string -> St -> option CConFrameIterator * St;
  on_con_frame_iterator_next :
    option CConFrameIterator -> St -> option RKRConFrame * St;
  on_free_con_frame_iterator : CConFrameIterator -> St -> St;
  on_rkr_frame_to_c_frame : option RKRConFrame -> St -> option CFrame * St;
  on_free_c_frame : CFrame -> St -> St;
  on_rkr_frame_get_header_line_cpp :
    option RKRConFrame -> bool -> size_t -> St -> option string * St;
  on_rkr_free_string : string -> St -> St;
  on_free_rkr_frame : RKRConFrame -> St -> St;
  on_create_writer_from_path_c : string -> St -> option RKRConFrameWriter * St;
  on_create_writer_from_path_with_precision_c :
    string -> uint8_t -> St -> option RKRConFrameWriter * St;
  on_rkr_writer_extend :
    option RKRConFrameWriter -> list (option RKRConFrame) -> St -> c_int * St;
  on_free_rkr_writer : RKRConFrameWriter -> St -> St;
  on_rkr_frame_new :
    array3 -> array3 -> lines2 -> lines2 -> St -> option RKRConFrameBuilder * St;
  on_rkr_frame_add_atom :
    option RKRConFrameBuilder -> string -> double -> double -> double ->
    bool -> uint64_t -> double -> St -> c_int * St;
  on_rkr_frame_add_atom_with_velocity :
    option RKRConFrameBuilder -> string -> double -> double -> double ->
    bool -> uint64_t -> double -> double -> double -> double -> St -> c_int * St;
  on_rkr_frame_builder_build :
    option RKRConFrameBuilder -> St -> option RKRConFrame * St;
  on_free_rkr_frame_builder : RKRConFrameBuilder -> St -> St
}.

(** Everything outside the object a method runs on. *)
Record World (e : Engine) : Type := mkWorld {
  eng : St e;            (* engine state, files included *)
  trace : list event;    (* C calls made so far and their replies, oldest first *)
  next_addr : nat        (* address the next [new] returns *)
}.
Arguments mkWorld {e} _ _ _.
Arguments eng {e} _.
Arguments trace {e} _.
Arguments next_addr {e} _.

(** ** State and exceptions *)

Inductive result (A : Type) : Type :=
| Ok (a : A)
| Throw (what : string).     (* std::runtime_error(what) *)
Arguments Ok {A} _.
Arguments Throw {A} _.

Definition M (S A : Type) : Type := S -> result A * S.

Definition ret {S A : Type} (a : A) : M S A := fun s => (Ok a, s).

Definition throw {S A : Type} (what : string) : M S A :=
  fun s => (Throw what, s).

Definition bind {S A B : Type} (m : M S A) (k : A -> M S B) : M S B :=
  fun s =>
    match m s with
    | (Ok a, s') => k a s'
    | (Throw what, s') => (Throw what, s')
    end.

Declare Scope cxx_scope.
Delimit Scope cxx_scope with cxx.
Notation "v <- m ;; k" := (bind m (fun v => k))
  (at level 100, m at next level, right associativity) : cxx_scope.
Notation "m ;; k" := (bind m (fun _ => k))
  (at level 100, right associativity) : cxx_scope.
Local Open Scope cxx_scope.

Section Methods.
Context {e : Engine} {T : Type}.

(** A method of a [T] object runs on the object and the world. *)
Definition this : M (T * World e) T := fun s => (Ok (fst s), s).

Definition assign (f : T -> T) : M (T * World e) unit :=
  fun s => (Ok tt, (f (fst s), snd s)).

Definition extern {A : Type} (m : M (World e) A) : M (T * World e) A :=
  fun s => let (r, w') := m (snd s) in (r, (fst s, w')).
End Methods.

Section Calls.
Context {e : Engine}.

(** A C call is logged, then answered by the engine. *)
Definition ffi {R : Type} (c : call) (log : R -> reply) (f : St e -> R * St e)
  : M (World e) R :=
  fun w =>
    let (r, s') := f (eng w) in
    (Ok r, mkWorld s' (trace w ++ [(c, log r)]) (next_addr w)).

Definition ffi_void (c : call) (f : St e -> St e) : M (World e) unit :=
  ffi c (fun _ => R_void) (fun s => (tt, f s)).

Definition read_con_file_iterator (path : string) :=
  ffi (Call_read_con_file_iterator path) R_iterator (on_read_con_file_iterator e path).
Definition con_frame_iterator_next (it : option CConFrameIterator) :=
  ffi (Call_con_frame_iterator_next it) R_frame (on_con_frame_iterator_next e it).
Definition free_con_frame_iterator (it : CConFrameIterator) :=
  ffi_void (Call_free_con_frame_iterator it) (on_free_con_frame_iterator e it).
Definition rkr_frame_to_c_frame (h : option RKRConFrame) :=
  ffi (Call_rkr_frame_to_c_frame h) R_c_frame (on_rkr_frame_to_c_frame e h).
Definition free_c_frame (cf : CFrame) :=
  ffi_void (Call_free_c_frame cf) (on_free_c_frame e cf).
Definition rkr_frame_get_header_line_cpp
    (h : option RKRConFrame) (is_prebox : bool) (index : size_t) :=
  ffi (Call_rkr_frame_get_header_line_cpp h is_prebox index) R_string
      (on_rkr_frame_get_header_line_cpp e h is_prebox index).
Definition rkr_free_string (s : string) :=
  ffi_void (Call_rkr_free_string s) (on_rkr_free_string e s).
Definition free_rkr_frame (h : RKRConFrame) :=
  ffi_void (Call_free_rkr_frame h) (on_free_rkr_frame e h).
Definition create_writer_from_path_c (path : string) :=
  ffi (Call_create_writer_from_path_c path) R_writer (on_create_writer_from_path_c e path).
Definition create_writer_from_path_with_precision_c
    (path : string) (precision : uint8_t) :=
  ffi (Call_create_writer_from_path_with_precision_c path precision) R_writer
      (on_create_writer_from_path_with_precision_c e path precision).
Definition rkr_writer_extend
    (w : option RKRConFrameWriter) (handles : list (option RKRConFrame)) :=
  ffi (Call_rkr_writer_extend w handles) R_int (on_rkr_writer_extend e w handles).
Definition free_rkr_writer (w : RKRConFrameWriter) :=
  ffi_void (Call_free_rkr_writer w) (on_free_rkr_writer e w).
Definition rkr_frame_new (cell angles : array3) (prebox postbox : lines2) :=
  ffi (Call_rkr_frame_new cell angles prebox postbox) R_builder
      (on_rkr_frame_new e cell angles prebox postbox).
Definition rkr_frame_add_atom
    (b : option RKRConFrameBuilder) (symbol : string) (px py pz : double)
    (fixed : bool) (id : uint64_t) (m : double) :=
  ffi (Call_rkr_frame_add_atom b symbol px py pz fixed id m) R_int
      (on_rkr_frame_add_atom e b symbol px py pz fixed id m).
Definition rkr_frame_add_atom_with_velocity
    (b : option RKRConFrameBuilder) (symbol : string) (px py pz : double)
    (fixed : bool) (id : uint64_t) (m : double) (pvx pvy pvz : double) :=
  ffi (Call_rkr_frame_add_atom_with_velocity b symbol px py pz fixed id m pvx pvy pvz) R_int
      (on_rkr_frame_add_atom_with_velocity e b symbol px py pz fixed id m pvx pvy pvz).
Definition rkr_frame_builder_build (b : option RKRConFrameBuilder) :=
  ffi (Call_rkr_frame_builder_build b) R_frame (on_rkr_frame_builder_build e b).
Definition free_rkr_frame_builder (b : RKRConFrameBuilder) :=
  ffi_void (Call_free_rkr_frame_builder b) (on_free_rkr_frame_builder e b).

(** [new T(...)]: the address comes from a counter.  The real free store may
    hand out the address of a deleted object again; the counter stands only
    for what both have, that two objects alive at the same time have
    different addresses, and no statement depends on the value of an
    address. *)
Definition cxx_new : M (World e) nat :=
  fun w => (Ok (next_addr w), mkWorld (eng w) (trace w) (S (next_addr w))).
End Calls.

(** ** class ConFrame *)

Module ConFrame.

Record t : Type := mk {
  frame_handle_ : option RKRConFrame;   (* unique_ptr with FrameDeleter *)
  is_cached_ : bool;
  atoms_cache_ : list Atom;
  cell_cache_ : array3;
  angles_cache_ : array3;
  prebox_header_cache_ : lines2;
  postbox_header_cache_ : lines2;
  has_velocities_cache_ : bool
}.

Definition set_is_cached_ (v : bool) (f : t) : t :=
  mk (frame_handle_ f) v (atoms_cache_ f) (cell_cache_ f) (angles_cache_ f)
     (prebox_header_cache_ f) (postbox_header_cache_ f) (has_velocities_cache_ f).
Definition set_atoms_cache_ (v : list Atom) (f : t) : t :=
  mk (frame_handle_ f) (is_cached_ f) v (cell_cache_ f) (angles_cache_ f)
     (prebox_header_cache_ f) (postbox_header_cache_ f) (has_velocities_cache_ f).
Definition set_cell_cache_ (v : array3) (f : t) : t :=
  mk (frame_handle_ f) (is_cached_ f) (atoms_cache_ f) v (angles_cache_ f)
     (prebox_header_cache_ f) (postbox_header_cache_ f) (has_velocities_cache_ f).
Definition set_angles_cache_ (v : array3) (f : t) : t :=
  mk (frame_handle_ f) (is_cached_ f) (atoms_cache_ f) (cell_cache_ f) v
     (prebox_header_cache_ f) (postbox_header_cache_ f) (has_velocities_cache_ f).
Definition set_prebox_header_cache_ (v : lines2) (f : t) : t :=
  mk (frame_handle_ f) (is_cached_ f) (atoms_cache_ f) (cell_cache_ f)
     (angles_cache_ f) v (postbox_header_cache_ f) (has_velocities_cache_ f).
Definition set_postbox_header_cache_ (v : lines2) (f : t) : t :=
  mk (frame_handle_ f) (is_cached_ f) (atoms_cache_ f) (cell_cache_ f)
     (angles_cache_ f) (prebox_header_cache_ f) v (has_velocities_cache_ f).
Definition set_has_velocities_cache_ (v : bool) (f : t) : t :=
  mk (frame_handle_ f) (is_cached_ f) (atoms_cache_ f) (cell_cache_ f)
     (angles_cache_ f) (prebox_header_cache_ f) (postbox_header_cache_ f) v.

(** [arr[0] = s] and [arr[1] = s] on a [std::array<std::string, 2>]. *)
Definition store0 (s : string) (a : lines2) : lines2 := (s, snd a).
Definition store1 (s : string) (a : lines2) : lines2 := (fst a, s).

(** [explicit ConFrame(RKRConFrame *frame_handle)]: the handle is stored and
    nothing is asked of the engine.  The two [std::array<double, 3>] members
    have no initializer; they are never read before [cache_data] wrote them
    and stand here as zero. *)
Definition ConFrame (frame_handle : option RKRConFrame) : t :=
  mk frame_handle false [] (0%Z, 0%Z, 0%Z) (0%Z, 0%Z, 0%Z) ("", "") ("", "") false.

Definition get_handle (f : t) : option RKRConFrame := frame_handle_ f.

(** [ConFrame(ConFrame &&) = default], member by member: the new object and
    what is left of the source.  The [unique_ptr] of the source becomes
    null, its [bool]s and [double]s are copied, its vector is left empty and
    so are its strings (the state the usual libraries leave a moved-from
    string in). *)
Definition move (f : t) : t * t :=
  (f, mk None (is_cached_ f) [] (cell_cache_ f) (angles_cache_ f) ("", "") ("", "")
         (has_velocities_cache_ f)).

(** The [Atom{...}] built from [c_atom] in the loop of [cache_data]. *)
Definition atom_of (c_atom : CAtom) : Atom :=
  mkAtom (c_atomic_number c_atom) (c_x c_atom) (c_y c_atom) (c_z c_atom)
         (c_atom_id c_atom) (c_mass c_atom) (c_is_fixed c_atom)
         (c_vx c_atom) (c_vy c_atom) (c_vz c_atom) (c_has_velocity c_atom).

(** [atoms_cache_.emplace_back(...)] for [i = 0 .. num_atoms - 1]. *)
Definition emplace_atoms (cache : list Atom) (c_atoms : list CAtom) : list Atom :=
  fold_left (fun acc c_atom => acc ++ [atom_of c_atom]) c_atoms cache.

Section WithEngine.
Context {e : Engine}.

(** [FrameDeleter]: what destroying [frame_handle_] does. *)
Definition FrameDeleter (ptr : option RKRConFrame) : M (World e) unit :=
  match ptr with
  | Some p => free_rkr_frame p
  | None => ret tt
  end.

(** [~ConFrame()]. *)
Definition destroy (f : t) : M (World e) unit := FrameDeleter (frame_handle_ f).

(** The lambda [get_and_free_string] of [cache_data]. *)
Definition get_and_free_string
    (frame_handle : option RKRConFrame) (is_prebox : bool) (index : size_t)
  : M (World e) string :=
  c_str <- rkr_frame_get_header_line_cpp frame_handle is_prebox index ;;
  match c_str with
  | None => ret ""
  | Some s => rkr_free_string s ;; ret s
  end.

Definition cache_data : M (t * World e) unit :=
  f <- this ;;
  if is_cached_ f then ret tt
  else
    c_frame <- extern (rkr_frame_to_c_frame (frame_handle_ f)) ;;
    match c_frame with
    | None => throw "Failed to extract CFrame from handle for caching."
    | Some cf =>
        assign (set_cell_cache_ (c_cell cf)) ;;
        assign (set_angles_cache_ (c_angles cf)) ;;
        assign (set_has_velocities_cache_ (c_has_velocities cf)) ;;
        assign (fun f => set_atoms_cache_ (emplace_atoms (atoms_cache_ f) (c_atoms cf)) f) ;;
        extern (free_c_frame cf) ;;
        s <- extern (get_and_free_string (frame_handle_ f) true 0%N) ;;
        assign (fun f => set_prebox_header_cache_ (store0 s (prebox_header_cache_ f)) f) ;;
        s <- extern (get_and_free_string (frame_handle_ f) true 1%N) ;;
        assign (fun f => set_prebox_header_cache_ (store1 s (prebox_header_cache_ f)) f) ;;
        s <- extern (get_and_free_string (frame_handle_ f) false 0%N) ;;
        assign (fun f => set_postbox_header_cache_ (store0 s (postbox_header_cache_ f)) f) ;;
        s <- extern (get_and_free_string (frame_handle_ f) false 1%N) ;;
        assign (fun f => set_postbox_header_cache_ (store1 s (postbox_header_cache_ f)) f) ;;
        assign (set_is_cached_ true)
    end.

Definition cell : M (t * World e) array3 :=
  cache_data ;; f <- this ;; ret (cell_cache_ f).
Definition angles : M (t * World e) array3 :=
  cache_data ;; f <- this ;; ret (angles_cache_ f).
Definition atoms : M (t * World e) (list Atom) :=
  cache_data ;; f <- this ;; ret (atoms_cache_ f).
Definition prebox_header : M (t * World e) lines2 :=
  cache_data ;; f <- this ;; ret (prebox_header_cache_ f).
Definition postbox_header : M (t * World e) lines2 :=
  cache_data ;; f <- this ;; ret (postbox_header_cache_ f).
Definition has_velocities : M (t * World e) bool :=
  cache_data ;; f <- this ;; ret (has_velocities_cache_ f).
End WithEngine.

End ConFrame.

(** A constructor body runs on the freshly initialised members; the object
    exists only if the body does not throw. *)
Definition construct {e : Engine} {T : Type}
    (init : T) (body : M (T * World e) unit) : M (World e) T :=
  fun w =>
    match body (init, w) with
    | (Ok _, (obj, w')) => (Ok obj, w')
    | (Throw what, (_, w')) => (Throw what, w')
    end.

(** ** class ConFrameIterator and its nested class Iterator *)

Module ConFrameIterator.

Module Iterator.

(** [current_frame_] is a [unique_ptr<ConFrame>]: the address [new]
    returned together with the object that lives there. *)
Record t : Type := mk {
  iterator_ptr_ : option CConFrameIterator;
  current_frame_ : option (nat * ConFrame.t)
}.

Definition set_current_frame_ (p : option (nat * ConFrame.t)) (it : t) : t :=
  mk (iterator_ptr_ it) p.

(** [unique_ptr::get]. *)
Definition get (p : option (nat * ConFrame.t)) : option nat := option_map fst p.

Definition ptr_eqb (p q : option nat) : bool :=
  match p, q with
  | None, None => true
  | Some a, Some b => Nat.eqb a b
  | _, _ => false
  end.

(** [operator!=]: the two [unique_ptr]s are compared, that is, the
    addresses they hold. *)
Definition operator_ne (it other : t) : bool :=
  negb (ptr_eqb (get (current_frame_ it)) (get (current_frame_ other))).

(** [operator*] and [operator->]; [None] is a null dereference. *)
Definition operator_star (it : t) : option ConFrame.t :=
  option_map snd (current_frame_ it).
Definition operator_arrow (it : t) : option nat := get (current_frame_ it).

Section WithEngine.
Context {e : Engine}.

(** Assignment to [current_frame_]: the new pointer is stored, then the
    frame held before is deleted. *)
Definition assign_current_frame_ (p : option (nat * ConFrame.t))
  : M (t * World e) unit :=
  it <- this ;;
  assign (set_current_frame_ p) ;;
  match current_frame_ it with
  | Some (_, old) => extern (ConFrame.destroy old)
  | None => ret tt
  end.

Definition fetch_next_frame : M (t * World e) unit :=
  it <- this ;;
  frame_handle <- extern (con_frame_iterator_next (iterator_ptr_ it)) ;;
  match frame_handle with
  | Some h =>
      a <- extern cxx_new ;;
      assign_current_frame_ (Some (a, ConFrame.ConFrame (Some h)))
  | None => assign_current_frame_ None
  end.

(** [explicit Iterator(CConFrameIterator *iterator_ptr)]. *)
Definition Iterator (iterator_ptr : option CConFrameIterator) : M (World e) t :=
  construct (mk iterator_ptr None)
            (match iterator_ptr with
             | Some _ => fetch_next_frame
             | None => ret tt
             end).

(** [operator++]; the reference it returns is the object itself. *)
Definition operator_incr : M (t * World e) unit := fetch_next_frame.

(** [~Iterator()]: the held frame, if any, is deleted. *)
Definition destroy (it : t) : M (World e) unit :=
  match current_frame_ it with
  | Some (_, f) => ConFrame.destroy f
  | None => ret tt
  end.
End WithEngine.

End Iterator.

Record t : Type := mk {
  iterator_ptr_ : option CConFrameIterator   (* unique_ptr with IteratorDeleter *)
}.

Section WithEngine.
Context {e : Engine}.

(** [explicit ConFrameIterator(const std::filesystem::path &path)]. *)
Definition ConFrameIterator (path : string) : M (World e) t :=
  iter_ptr <- read_con_file_iterator path ;;
  match iter_ptr with
  | None => throw ("Failed to open .con file for iteration: " ++ path)%string
  | Some p => ret (mk (Some p))
  end.

Definition begin (c : t) : M (World e) Iterator.t :=
  Iterator.Iterator (iterator_ptr_ c).

Definition end_ (c : t) : M (World e) Iterator.t :=
  Iterator.Iterator None.

(** [IteratorDeleter], run by [~ConFrameIterator()]. *)
Definition destroy (c : t) : M (World e) unit :=
  match iterator_ptr_ c with
  | Some p => free_con_frame_iterator p
  | None => ret tt
  end.
End WithEngine.

End ConFrameIterator.

(** ** class ConFrameWriter *)

Module ConFrameWriter.

Record t : Type := mk {
  writer_handle_ : option RKRConFrameWriter   (* unique_ptr with WriterDeleter *)
}.

(** The default argument [precision = 6]. *)
Definition default_precision : uint8_t := 6%N.

(** The loop [for (const auto &frame : frames) handles.push_back(...)]. *)
Definition collect_handles (frames : list ConFrame.t) : list (option RKRConFrame) :=
  fold_left (fun handles frame => handles ++ [ConFrame.get_handle frame]) frames [].

Section WithEngine.
Context {e : Engine}.

Definition ConFrameWriter (path : string) (precision : uint8_t) : M (World e) t :=
  h <- (if N.eqb precision 6
        then create_writer_from_path_c path
        else create_writer_from_path_with_precision_c path precision) ;;
  match h with
  | None => throw ("Failed to create writer for file: " ++ path)%string
  | Some _ => ret (mk h)
  end.

Definition extend (frames : list ConFrame.t) : M (t * World e) unit :=
  match frames with
  | [] => ret tt
  | _ :: _ =>
      wr <- this ;;
      rc <- extern (rkr_writer_extend (writer_handle_ wr) (collect_handles frames)) ;;
      if Z.eqb rc 0 then ret tt
      else throw "Failed to write multiple frames."
  end.

(** [WriterDeleter], run by [~ConFrameWriter()]. *)
Definition destroy (wr : t) : M (World e) unit :=
  match writer_handle_ wr with
  | Some p => free_rkr_writer p
  | None => ret tt
  end.
End WithEngine.

End ConFrameWriter.

(** ** class ConFrameBuilder *)

Module ConFrameBuilder.

Record t : Type := mk {
  builder_handle_ : option RKRConFrameBuilder   (* raw pointer, [nullptr] by default *)
}.

Definition set_builder_handle_ (p : option RKRConFrameBuilder) (b : t) : t := mk p.

(** The default arguments [prebox = {"", ""}] and [postbox = {"", ""}]. *)
Definition default_header : lines2 := ("", "").

Section WithEngine.
Context {e : Engine}.

Definition ConFrameBuilder (cell angles : array3) (prebox postbox : lines2)
  : M (World e) t :=
  construct (mk None)
    (h <- extern (rkr_frame_new cell angles prebox postbox) ;;
     assign (set_builder_handle_ h) ;;
     match h with
     | None => throw "Failed to create frame builder."
     | Some _ => ret tt
     end).

(** [~ConFrameBuilder()]. *)
Definition destroy (b : t) : M (World e) unit :=
  match builder_handle_ b with
  | Some p => free_rkr_frame_builder p
  | None => ret tt
  end.

Definition add_atom (symbol : string) (px py pz : double) (fixed : bool)
    (id : uint64_t) (m : double) : M (t * World e) unit :=
  b <- this ;;
  rc <- extern (rkr_frame_add_atom (builder_handle_ b) symbol px py pz fixed id m) ;;
  if Z.eqb rc 0 then ret tt
  else throw "Failed to add atom to frame builder.".

Definition add_atom_with_velocity (symbol : string) (px py pz : double)
    (fixed : bool) (id : uint64_t) (m : double) (pvx pvy pvz : double)
  : M (t * World e) unit :=
  b <- this ;;
  rc <- extern (rkr_frame_add_atom_with_velocity
                  (builder_handle_ b) symbol px py pz fixed id m pvx pvy pvz) ;;
  if Z.eqb rc 0 then ret tt
  else throw "Failed to add atom with velocity to frame builder.".

Definition build : M (t * World e) ConFrame.t :=
  b <- this ;;
  frame <- extern (rkr_frame_builder_build (builder_handle_ b)) ;;
  assign (set_builder_handle_ None) ;;    (* ownership transferred *)
  match frame with
  | None => throw "Failed to build frame from builder."
  | Some h => ret (ConFrame.ConFrame (Some h))
  end.
End WithEngine.

End ConFrameBuilder.

(** ** An in-memory engine

    Modelled from the spec: the engine itself is not part of the wrapper; this
    one follows the contract the spec lists for it (iterator open and next
    with null at the end, frame snapshot, header line or null, writer open
    and extend with a result code, builder new, add and build, and the
    release functions).  It keeps files, sessions and handles in association
    lists and answers a null or unknown handle with failure.  The wrapper is
    run against it on concrete inputs. *)

Module Sim.

Record FrameData : Type := mkFrameData {
  snapshot : CFrame;
  prebox : list string;      (* header lines present before the cell block *)
  postbox : list string      (* header lines present after it *)
}.

Record BuilderData : Type := mkBuilderData {
  b_cell : array3;
  b_angles : array3;
  b_prebox : lines2;
  b_postbox : lines2;
  b_atoms : list CAtom
}.

Record state : Type := mkState {
  disk : list (string * list FrameData);
  live_frames : list (positive * FrameData);
  sessions : list (positive * list FrameData);
  writers : list (positive * string);
  builders : list (positive * BuilderData);
  fresh : positive
}.

Fixpoint lookup {V : Type} (k : positive) (m : list (positive * V)) : option V :=
  match m with
  | [] => None
  | (k', v) :: m' => if Pos.eqb k k' then Some v else lookup k m'
  end.

Definition remove {V : Type} (k : positive) (m : list (positive * V))
  : list (positive * V) :=
  filter (fun kv => negb (Pos.eqb k (fst kv))) m.

Fixpoint file (path : string) (d : list (string * list FrameData))
  : option (list FrameData) :=
  match d with
  | [] => None
  | (p, fs) :: d' => if String.eqb path p then Some fs else file path d'
  end.

Definition store (path : string) (fs : list FrameData)
    (d : list (string * list FrameData)) : list (string * list FrameData) :=
  (path, fs) :: filter (fun pf => negb (String.eqb path (fst pf))) d.

Definition with_disk d (s : state) :=
  mkState d (live_frames s) (sessions s) (writers s) (builders s) (fresh s).
Definition with_live_frames l (s : state) :=
  mkState (disk s) l (sessions s) (writers s) (builders s) (fresh s).
Definition with_sessions l (s : state) :=
  mkState (disk s) (live_frames s) l (writers s) (builders s) (fresh s).
Definition with_writers l (s : state) :=
  mkState (disk s) (live_frames s) (sessions s) l (builders s) (fresh s).
Definition with_builders l (s : state) :=
  mkState (disk s) (live_frames s) (sessions s) (writers s) l (fresh s).
Definition bump (s : state) :=
  mkState (disk s) (live_frames s) (sessions s) (writers s) (builders s)
          (Pos.succ (fresh s)).

Definition open_session (path : string) (s : state) : option positive * state :=
  match file path (disk s) with
  | None => (None, s)
  | Some fs => (Some (fresh s), bump (with_sessions ((fresh s, fs) :: sessions s) s))
  end.

Definition next (it : option positive) (s : state) : option positive * state :=
  match it with
  | None => (None, s)
  | Some i =>
      match lookup i (sessions s) with
      | Some (fd :: rest) =>
          (Some (fresh s),
           bump (with_live_frames ((fresh s, fd) :: live_frames s)
                  (with_sessions ((i, rest) :: remove i (sessions s)) s)))
      | _ => (None, s)
      end
  end.

Definition to_c_frame (h : option positive) (s : state) : option CFrame * state :=
  match h with
  | None => (None, s)
  | Some p => (option_map snapshot (lookup p (live_frames s)), s)
  end.

Definition header_line (h : option positive) (is_prebox : bool) (index : size_t)
    (s : state) : option string * state :=
  match h with
  | None => (None, s)
  | Some p =>
      match lookup p (live_frames s) with
      | None => (None, s)
      | Some fd =>
          (nth_error (if is_prebox then prebox fd else postbox fd) (N.to_nat index), s)
      end
  end.

Definition open_writer (path : string) (s : state) : option positive * state :=
  if String.eqb path "" then (None, s)
  else (Some (fresh s),
        bump (with_writers ((fresh s, path) :: writers s)
               (with_disk (store path [] (disk s)) s))).

Fixpoint resolve (hs : list (option positive)) (s : state) : option (list FrameData) :=
  match hs with
  | [] => Some []
  | None :: _ => None
  | Some p :: hs' =>
      match lookup p (live_frames s), resolve hs' s with
      | Some fd, Some fds => Some (fd :: fds)
      | _, _ => None
      end
  end.

Definition writer_extend (w : option positive) (hs : list (option positive))
    (s : state) : c_int * state :=
  match w with
  | None => ((-1)%Z, s)
  | Some p =>
      match lookup p (writers s), resolve hs s with
      | Some path, Some fds =>
          let old := match file path (disk s) with Some fs => fs | None => [] end in
          (0%Z, with_disk (store path (old ++ fds) (disk s)) s)
      | _, _ => ((-1)%Z, s)
      end
  end.

Definition new_builder (cell angles : array3) (pre post : lines2) (s : state)
  : option positive * state :=
  (Some (fresh s),
   bump (with_builders ((fresh s, mkBuilderData cell angles pre post []) :: builders s) s)).

Definition species (symbol : string) : option uint64_t :=
  if String.eqb symbol "H" then Some 1%N
  else if String.eqb symbol "O" then Some 8%N
  else if String.eqb symbol "Cu" then Some 29%N
  else None.

Definition push_atom (b : option positive) (a : option CAtom) (s : state)
  : c_int * state :=
  match b, a with
  | Some p, Some atom =>
      match lookup p (builders s) with
      | Some bd =>
          (0%Z,
           with_builders
             ((p, mkBuilderData (b_cell bd) (b_angles bd) (b_prebox bd) (b_postbox bd)
                    (b_atoms bd ++ [atom])) :: remove p (builders s)) s)
      | None => ((-1)%Z, s)
      end
  | _, _ => ((-1)%Z, s)
  end.

Definition add (b : option positive) (symbol : string) (px py pz : double)
    (fixed : bool) (id : uint64_t) (m : double) :=
  push_atom b (option_map (fun n => mkCAtom n px py pz id m fixed 0%Z 0%Z 0%Z false)
                          (species symbol)).

Definition add_v (b : option positive) (symbol : string) (px py pz : double)
    (fixed : bool) (id : uint64_t) (m : double) (pvx pvy pvz : double) :=
  push_atom b (option_map (fun n => mkCAtom n px py pz id m fixed pvx pvy pvz true)
                          (species symbol)).

(** Species in order of first occurrence, then the atoms run by run. *)
Fixpoint first_seen (seen : list uint64_t) (l : list CAtom) : list uint64_t :=
  match l with
  | [] => seen
  | a :: l' =>
      if existsb (N.eqb (c_atomic_number a)) seen then first_seen seen l'
      else first_seen (seen ++ [c_atomic_number a]) l'
  end.

Definition grouped (l : list CAtom) : list CAtom :=
  flat_map (fun n => filter (fun a => N.eqb (c_atomic_number a) n) l) (first_seen [] l).

Definition finish (b : option positive) (s : state) : option positive * state :=
  match b with
  | None => (None, s)
  | Some p =>
      match lookup p (builders s) with
      | None => (None, s)
      | Some bd =>
          let s' := with_builders (remove p (builders s)) s in
          let all_v := forallb c_has_velocity (b_atoms bd) in
          let none_v := forallb (fun a => negb (c_has_velocity a)) (b_atoms bd) in
          match b_atoms bd with
          | [] => (None, s')
          | _ :: _ =>
              if all_v || none_v then
                let fd := mkFrameData
                            (mkCFrame (b_cell bd) (b_angles bd) (grouped (b_atoms bd)) all_v)
                            [fst (b_prebox bd); snd (b_prebox bd)]
                            [fst (b_postbox bd); snd (b_postbox bd)] in
                (Some (fresh s), bump (with_live_frames ((fresh s, fd) :: live_frames s') s'))
              else (None, s')
          end
      end
  end.

Definition engine : Engine :=
  mkEngine state
    open_session
    next
    (fun it s => with_sessions (remove it (sessions s)) s)
    to_c_frame
    (fun _ s => s)
    header_line
    (fun _ s => s)
    (fun h s => with_live_frames (remove h (live_frames s)) s)
    open_writer
    (fun path _ s => open_writer path s)
    writer_extend
    (fun w s => with_writers (remove w (writers s)) s)
    new_builder
    add
    add_v
    finish
    (fun b s => with_builders (remove b (builders s)) s).

(** A world whose disk is [d]: nothing open, nothing called yet. *)
Definition boot (d : list (string * list FrameData)) : World engine :=
  mkWorld (mkState d [] [] [] [] 1%positive : St engine) [] 0.

End Sim.

(** ** Reading the call log *)

Definition is_snapshot_query (ev : event) : bool :=
  match fst ev with Call_rkr_frame_to_c_frame _ => true | _ => false end.

Definition is_header_query (ev : event) : bool :=
  match fst ev with Call_rkr_frame_get_header_line_cpp _ _ _ => true | _ => false end.

Definition is_fetch (ev : event) : bool :=
  match fst ev with Call_con_frame_iterator_next _ => true | _ => false end.

(** The calls that hand something back to the engine. *)
Definition is_release (ev : event) : bool :=
  match fst ev with
  | Call_free_con_frame_iterator _ | Call_free_c_frame _ | Call_rkr_free_string _
  | Call_free_rkr_frame _ | Call_free_rkr_writer _ | Call_free_rkr_frame_builder _ => true
  | _ => false
  end.

(** The calls that ask the engine for something. *)
Definition is_request (ev : event) : bool := negb (is_release ev).

Definition count (p : event -> bool) (l : list event) : nat := List.length (filter p l).

(** The six public accessors of [ConFrame], and what each returns. *)
Inductive accessor : Type :=
| Acc_cell | Acc_angles | Acc_atoms
| Acc_prebox_header | Acc_postbox_header | Acc_has_velocities.

Inductive value : Type :=
| V_array3 (a : array3)
| V_atoms (l : list Atom)
| V_lines (l : lines2)
| V_bool (b : bool).

Definition access {e : Engine} (a : accessor) : M (ConFrame.t * World e) value :=
  match a with
  | Acc_cell => v <- ConFrame.cell ;; ret (V_array3 v)
  | Acc_angles => v <- ConFrame.angles ;; ret (V_array3 v)
  | Acc_atoms => v <- ConFrame.atoms ;; ret (V_atoms v)
  | Acc_prebox_header => v <- ConFrame.prebox_header ;; ret (V_lines v)
  | Acc_postbox_header => v <- ConFrame.postbox_header ;; ret (V_lines v)
  | Acc_has_velocities => v <- ConFrame.has_velocities ;; ret (V_bool v)
  end.

(** The cache member an accessor returns a reference to. *)
Definition cache_of (a : accessor) (f : ConFrame.t) : value :=
  match a with
  | Acc_cell => V_array3 (ConFrame.cell_cache_ f)
  | Acc_angles => V_array3 (ConFrame.angles_cache_ f)
  | Acc_atoms => V_atoms (ConFrame.atoms_cache_ f)
  | Acc_prebox_header => V_lines (ConFrame.prebox_header_cache_ f)
  | Acc_postbox_header => V_lines (ConFrame.postbox_header_cache_ f)
  | Acc_has_velocities => V_bool (ConFrame.has_velocities_cache_ f)
  end.

(** The string [get_and_free_string] makes of a reply. *)
Definition header_text (r : option string) : string :=
  match r with
  | Some s => s
  | None => ""
  end.

(** Concrete inputs for the in-memory engine. *)
Module Fixtures.

Definition oxygen : CAtom :=
  mkCAtom 8%N 0%Z 0%Z 0%Z 0%N 16%Z true 0%Z 0%Z 0%Z false.
Definition hydrogen : CAtom :=
  mkCAtom 1%N 1%Z 0%Z 0%Z 1%N 1%Z false 0%Z 0%Z 0%Z false.

(** A frame for which the engine has the first pre-box line and no other
    header line, and a frame with all four. *)
Definition water : Sim.FrameData :=
  Sim.mkFrameData (mkCFrame (10%Z, 10%Z, 10%Z) (90%Z, 90%Z, 90%Z) [oxygen; hydrogen] false)
                  ["generated"] [].
Definition copper : Sim.FrameData :=
  Sim.mkFrameData
    (mkCFrame (5%Z, 5%Z, 5%Z) (90%Z, 90%Z, 90%Z)
              [mkCAtom 29%N 0%Z 0%Z 0%Z 0%N 63%Z true 0%Z 0%Z 0%Z false] false)
    ["a"; "b"] ["c"; "d"].

Definition disk : list (string * list Sim.FrameData) :=
  [("two.con", [water; copper]); ("empty.con", [])].

Definition w0 : World Sim.engine := Sim.boot disk.

(** ["two.con"] opened for iteration, then [begin()] called once. *)
Definition frames : ConFrameIterator.t := ConFrameIterator.mk (Some 1%positive).
Definition w1 : World Sim.engine :=
  Eval vm_compute in snd (ConFrameIterator.ConFrameIterator "two.con" w0).
Definition w2 : World Sim.engine :=
  Eval vm_compute in snd (ConFrameIterator.begin frames w1).

(** The frame that [begin()] holds, and what is left of a frame moved from
    before its first access. *)
Definition first_frame : ConFrame.t := ConFrame.ConFrame (Some 2%positive).
Definition stale : ConFrame.t := snd (ConFrame.move first_frame).

(** The position [begin()] returned, the position after one advance, and
    the world after that advance. *)
Definition at_first : ConFrameIterator.Iterator.t :=
  ConFrameIterator.Iterator.mk (Some 1%positive) (Some (0, first_frame)).
Definition at_second : ConFrameIterator.Iterator.t :=
  ConFrameIterator.Iterator.mk (Some 1%positive)
    (Some (1, ConFrame.ConFrame (Some 3%positive))).
Definition w3 : World Sim.engine :=
  Eval vm_compute in
    snd (snd (ConFrameIterator.Iterator.operator_incr (at_first, w2))).

(** [begin()] called a second time instead: both frames of the file are live. *)
Definition second_frame : ConFrame.t := ConFrame.ConFrame (Some 3%positive).
Definition w2' : World Sim.engine :=
  Eval vm_compute in snd (ConFrameIterator.begin frames w2).

(** A writer on ["out.con"] opened in that world. *)
Definition writer : ConFrameWriter.t := ConFrameWriter.mk (Some 4%positive).
Definition w4 : World Sim.engine :=
  Eval vm_compute in
    snd (ConFrameWriter.ConFrameWriter "out.con" ConFrameWriter.default_precision w2').

(** A builder, one copper atom added to it, and the world after [build()]. *)
Definition builder : ConFrameBuilder.t := ConFrameBuilder.mk (Some 1%positive).
Definition u1 : World Sim.engine :=
  Eval vm_compute in
    snd (ConFrameBuilder.ConFrameBuilder (10%Z, 10%Z, 10%Z) (90%Z, 90%Z, 90%Z)
           ConFrameBuilder.default_header ConFrameBuilder.default_header w0).
Definition u2 : World Sim.engine :=
  Eval vm_compute in
    snd (snd (ConFrameBuilder.add_atom "Cu" 0%Z 0%Z 0%Z true 0%N 63%Z (builder, u1))).

(** ["empty.con"] opened for iteration. *)
Definition no_frames : ConFrameIterator.t := ConFrameIterator.mk (Some 1%positive).
Definition v1 : World Sim.engine :=
  Eval vm_compute in snd (ConFrameIterator.ConFrameIterator "empty.con" w0).

End Fixtures.

(** What one run of [get_and_free_string] adds to the log, given the reply. *)
Definition header_events (h : option RKRConFrame) (is_prebox : bool) (index : size_t)
    (r : option string) : list event :=
  (Call_rkr_frame_get_header_line_cpp h is_prebox index, R_string r)
  :: match r with
     | Some s => [(Call_rkr_free_string s, R_void)]
     | None => []
     end.

(** What a materialization adds to the log, given the engine's replies. *)
Definition materialization_log (h : option RKRConFrame) (cf : CFrame)
    (r1 r2 r3 r4 : option string) : list event :=
  [(Call_rkr_frame_to_c_frame h, R_c_frame (Some cf)); (Call_free_c_frame cf, R_void)]
  ++ header_events h true 0%N r1 ++ header_events h true 1%N r2
  ++ header_events h false 0%N r3 ++ header_events h false 1%N r4.

(** The frame a materialization leaves behind. *)
Definition materialized (f : ConFrame.t) (cf : CFrame) (r1 r2 r3 r4 : option string)
  : ConFrame.t :=
  ConFrame.mk (ConFrame.frame_handle_ f) true
              (ConFrame.atoms_cache_ f ++ map ConFrame.atom_of (c_atoms cf))
              (c_cell cf) (c_angles cf)
              (header_text r1, header_text r2) (header_text r3, header_text r4)
              (c_has_velocities cf).

(** The handle of the frame an iterator holds, if it holds one. *)
Definition held_handle (it : ConFrameIterator.Iterator.t) : option RKRConFrame :=
  match ConFrameIterator.Iterator.current_frame_ it with
  | Some (_, f) => ConFrame.get_handle f
  | None => None
  end.

(** What deleting the frame an iterator holds adds to the log. *)
Definition release_held (it : ConFrameIterator.Iterator.t) : list event :=
  match held_handle it with
  | Some p => [(Call_free_rkr_frame p, R_void)]
  | None => []
  end.



(** ** An engine that accepts a null builder handle

    Modelled from the spec: the contract of the builder functions is "opaque
    frame handle or null" for the build and "success/failure code" for the
    two additions, and it fixes no reply for a null builder handle.  This
    engine is the in-memory one except on that handle: an addition is
    answered 0 and changes nothing, a build is answered with the handle of a
    frame without atoms. *)

Module Lenient.

Definition add (b : option positive) (symbol : string) (px py pz : double)
    (fixed : bool) (id : uint64_t) (m : double) (s : Sim.state) : c_int * Sim.state :=
  match b with
  | None => (0%Z, s)
  | Some _ => Sim.add b symbol px py pz fixed id m s
  end.

Definition add_v (b : option positive) (symbol : string) (px py pz : double)
    (fixed : bool) (id : uint64_t) (m : double) (pvx pvy pvz : double) (s : Sim.state)
  : c_int * Sim.state :=
  match b with
  | None => (0%Z, s)
  | Some _ => Sim.add_v b symbol px py pz fixed id m pvx pvy pvz s
  end.

Definition finish (b : option positive) (s : Sim.state) : option positive * Sim.state :=
  match b with
  | None =>
      let fd := Sim.mkFrameData (mkCFrame (0%Z, 0%Z, 0%Z) (0%Z, 0%Z, 0%Z) [] false) [] [] in
      (Some (Sim.fresh s),
       Sim.bump (Sim.with_live_frames ((Sim.fresh s, fd) :: Sim.live_frames s) s))
  | Some _ => Sim.finish b s
  end.

Definition engine : Engine :=
  mkEngine Sim.state
    Sim.open_session
    Sim.next
    (fun it s => Sim.with_sessions (Sim.remove it (Sim.sessions s)) s)
    Sim.to_c_frame
    (fun _ s => s)
    Sim.header_line
    (fun _ s => s)
    (fun h s => Sim.with_live_frames (Sim.remove h (Sim.live_frames s)) s)
    Sim.open_writer
    (fun path _ s => Sim.open_writer path s)
    Sim.writer_extend
    (fun w s => Sim.with_writers (Sim.remove w (Sim.writers s)) s)
    Sim.new_builder
    add
    add_v
    finish
    (fun b s => Sim.with_builders (Sim.remove b (Sim.builders s)) s).

Definition builder : ConFrameBuilder.t := ConFrameBuilder.mk (Some 1%positive).

End Lenient.

(** ** The free functions [read_first_frame] and [read_all_frames]

    They call three more C functions of [readcon-core.h].  These are taken
    as a second parameter beside the engine, acting on the same engine
    state, and their calls are kept in a log of their own. *)

Record Reader (e : Engine) : Type := mkReader {
  on_rkr_read_first_frame : string -> St e -> option RKRConFrame * St e;
  (* the array and [num_frames] as one list; [None] is a null array *)
  on_rkr_read_all_frames : string -> St e -> option (list (option RKRConFrame)) * St e;
  on_free_rkr_frame_array : list (option RKRConFrame) -> size_t -> St e -> St e
}.
Arguments on_rkr_read_first_frame {e} _ _ _.
Arguments on_rkr_read_all_frames {e} _ _ _.
Arguments on_free_rkr_frame_array {e} _ _ _ _.

(** A call of one of the three, with what it returned. *)
Inductive read_call : Type :=
| Call_rkr_read_first_frame (path : string) (reply : option RKRConFrame)
| Call_rkr_read_all_frames (path : string) (reply : option (list (option RKRConFrame)))
| Call_free_rkr_frame_array (handles : list (option RKRConFrame)) (num_frames : size_t).

Record ReadWorld (e : Engine) : Type := mkReadWorld {
  world : World e;
  reads : list read_call
}.
Arguments mkReadWorld {e} _ _.
Arguments world {e} _.
Arguments reads {e} _.

(** [l[i] = v] on an array; an index past the end is never written. *)
Fixpoint store_at {A : Type} (i : nat) (v : A) (l : list A) : list A :=
  match l, i with
  | [], _ => []
  | _ :: l', O => v :: l'
  | a :: l', S i' => a :: store_at i' v l'
  end.

Module Reading.

Section WithReader.
Context {e : Engine} (rd : Reader e).

Definition in_world {A : Type} (m : M (World e) A) : M (ReadWorld e) A :=
  fun rw => let (r, w') := m (world rw) in (r, mkReadWorld w' (reads rw)).

Definition read_ffi {R : Type} (log : R -> read_call) (f : St e -> R * St e)
  : M (ReadWorld e) R :=
  fun rw =>
    let (r, s') := f (eng (world rw)) in
    (Ok r,
     mkReadWorld (mkWorld s' (trace (world rw)) (next_addr (world rw)))
                 (reads rw ++ [log r])).

Definition rkr_read_first_frame (path : string) :=
  read_ffi (Call_rkr_read_first_frame path) (on_rkr_read_first_frame rd path).
Definition rkr_read_all_frames (path : string) :=
  read_ffi (Call_rkr_read_all_frames path) (on_rkr_read_all_frames rd path).
Definition free_rkr_frame_array (handles : list (option RKRConFrame)) (num_frames : size_t) :=
  read_ffi (fun _ : unit => Call_free_rkr_frame_array handles num_frames)
           (fun s => (tt, on_free_rkr_frame_array rd handles num_frames s)).

Definition read_first_frame (path : string) : M (ReadWorld e) ConFrame.t :=
  handle <- rkr_read_first_frame path ;;
  match handle with
  | None => throw ("Failed to read first frame from: " ++ path)%string
  | Some h => ret (ConFrame.ConFrame (Some h))
  end.

(** The loop [for (i = 0; i < num_frames; ++i)
    frames.emplace_back(ConFrame(handles[i]))], from index [i] with [todo]
    rounds to go.  The temporary is moved into the vector and destroyed. *)
Fixpoint emplace_frames (handles : list (option RKRConFrame)) (i todo : nat)
    (frames : list ConFrame.t) : M (ReadWorld e) (list ConFrame.t) :=
  match todo with
  | O => ret frames
  | S todo' =>
      let temporary := ConFrame.ConFrame (nth i handles None) in
      in_world (ConFrame.destroy (snd (ConFrame.move temporary))) ;;
      emplace_frames handles (S i) todo' (frames ++ [fst (ConFrame.move temporary)])
  end.

(** The loop [for (i = 0; i < num_frames; ++i) handles[i] = nullptr]. *)
Definition null_out (handles : list (option RKRConFrame)) (num_frames : nat)
  : list (option RKRConFrame) :=
  fold_left (fun hs i => store_at i None hs) (seq 0 num_frames) handles.

Definition read_all_frames (path : string) : M (ReadWorld e) (list ConFrame.t) :=
  reply <- rkr_read_all_frames path ;;
  match reply with
  | None => throw ("Failed to read frames from: " ++ path)%string
  | Some handles =>
      let num_frames := List.length handles in
      frames <- emplace_frames handles 0 num_frames [] ;;
      free_rkr_frame_array (null_out handles num_frames) (N.of_nat num_frames) ;;
      ret frames
  end.

End WithReader.

End Reading.

(** Modelled from the spec: the reading functions of the in-memory engine
    ("decode first frame: frame handle or null", "decode all frames: array of
    frame handles and count, or null", and the release of that array). *)
Module SimReader.

Definition read_first (path : string) (s : Sim.state) : option positive * Sim.state :=
  match Sim.file path (Sim.disk s) with
  | Some (fd :: _) =>
      (Some (Sim.fresh s),
       Sim.bump (Sim.with_live_frames ((Sim.fresh s, fd) :: Sim.live_frames s) s))
  | _ => (None, s)
  end.

Fixpoint load (fds : list Sim.FrameData) (s : Sim.state)
  : list (option positive) * Sim.state :=
  match fds with
  | [] => ([], s)
  | fd :: fds' =>
      let h := Sim.fresh s in
      let (hs, s') :=
        load fds' (Sim.bump (Sim.with_live_frames ((h, fd) :: Sim.live_frames s) s)) in
      (Some h :: hs, s')
  end.

Definition read_all (path : string) (s : Sim.state)
  : option (list (option positive)) * Sim.state :=
  match Sim.file path (Sim.disk s) with
  | None => (None, s)
  | Some fds => let (hs, s') := load fds s in (Some hs, s')
  end.

Definition free_array (handles : list (option positive)) (n : size_t) (s : Sim.state)
  : Sim.state :=
  fold_left
    (fun s h =>
       match h with
       | Some p => Sim.with_live_frames (Sim.remove p (Sim.live_frames s)) s
       | None => s
       end)
    handles s.

Definition reader : Reader Sim.engine := mkReader Sim.engine read_first read_all free_array.

(** Nothing read yet, on the disk of the fixtures. *)
Definition rw0 : ReadWorld Sim.engine := mkReadWorld Fixtures.w0 [].

End SimReader.

(** ** Moving a [ConFrameBuilder] *)

Module BuilderMove.

(** [ConFrameBuilder(ConFrameBuilder &&other) noexcept]: the new object and
    what is left of [other]. *)
Definition move_construct (other : ConFrameBuilder.t) : ConFrameBuilder.t * ConFrameBuilder.t :=
  (ConFrameBuilder.mk (ConFrameBuilder.builder_handle_ other),
   ConFrameBuilder.set_builder_handle_ None other).

(** The two operands of [operator=(ConFrameBuilder &&other)]: one object
    named twice, or two objects. *)
Inductive operands : Type :=
| Same (both : ConFrameBuilder.t)
| Distinct (target other : ConFrameBuilder.t).

(** [operator=(ConFrameBuilder &&other) noexcept], with its test
    [this != &other]. *)
Definition move_assign {e : Engine} (ops : operands) : M (World e) operands :=
  match ops with
  | Same both => ret (Same both)
  | Distinct target other =>
      match ConFrameBuilder.builder_handle_ target with
      | Some p => free_rkr_frame_builder p
      | None => ret tt
      end ;;
      ret (Distinct
             (ConFrameBuilder.set_builder_handle_ (ConFrameBuilder.builder_handle_ other) target)
             (ConFrameBuilder.set_builder_handle_ None other))
  end.

(** The destructors of the objects named by the operands, target first. *)
Definition destroy_operands {e : Engine} (ops : operands) : M (World e) unit :=
  match ops with
  | Same both => ConFrameBuilder.destroy both
  | Distinct target other =>
      ConFrameBuilder.destroy target ;; ConFrameBuilder.destroy other
  end.

End BuilderMove.

(** ** Callers *)

(** The range-based for loop of the class documentation,
    [for (auto&& frame : frames) { ... }], from the position [begin()]
    returned: while the position differs from [last], the frame it holds is
    visited and the position advanced.  At most [fuel] rounds are run; the
    result is the handles of the frames visited and whether the loop has
    ended. *)
Fixpoint for_each {e : Engine} (fuel : nat) (last : ConFrameIterator.Iterator.t)
  : M (ConFrameIterator.Iterator.t * World e) (list (option RKRConFrame) * bool) :=
  match fuel with
  | O =>
      it <- this ;;
      ret ([], negb (ConFrameIterator.Iterator.operator_ne it last))
  | S fuel' =>
      it <- this ;;
      if ConFrameIterator.Iterator.operator_ne it last then
        ConFrameIterator.Iterator.operator_incr ;;
        rest <- for_each fuel' last ;;
        ret (held_handle it :: fst rest, snd rest)
      else ret ([], true)
  end.

(** The whole loop on a [ConFrameIterator]: [begin()] and [end()] are taken
    once, and both positions are destroyed when the loop is left (not when
    the rounds ran out first). *)
Definition range_for {e : Engine} (fuel : nat) (c : ConFrameIterator.t)
  : M (World e) (list (option RKRConFrame) * bool) :=
  first <- ConFrameIterator.begin c ;;
  last <- ConFrameIterator.end_ c ;;
  fun w =>
    match for_each fuel last (first, w) with
    | (Ok r, (it, w')) =>
        if snd r then
          (ConFrameIterator.Iterator.destroy last ;;
           ConFrameIterator.Iterator.destroy it ;;
           ret r) w'
        else (Ok r, w')
    | (Throw what, (_, w')) => (Throw what, w')
    end.

(** Accessor calls made one after the other on one frame by a caller that
    catches what they throw: the outcome of each and the state left. *)
Fixpoint accesses {e : Engine} (l : list accessor) (s : ConFrame.t * World e)
  : list (result value) * (ConFrame.t * World e) :=
  match l with
  | [] => ([], s)
  | a :: l' =>
      let (r, s1) := access a s in
      let (rs, s2) := accesses l' s1 in
      (r :: rs, s2)
  end.

(** One call of [add_atom] or of [add_atom_with_velocity]. *)
Inductive addition : Type :=
| Plain (symbol : string) (px py pz : double) (fixed : bool) (id : uint64_t) (m : double)
| Moving (symbol : string) (px py pz : double) (fixed : bool) (id : uint64_t) (m : double)
         (pvx pvy pvz : double).

Definition add {e : Engine} (a : addition) : M (ConFrameBuilder.t * World e) unit :=
  match a with
  | Plain symbol px py pz fixed id m =>
      ConFrameBuilder.add_atom symbol px py pz fixed id m
  | Moving symbol px py pz fixed id m pvx pvy pvz =>
      ConFrameBuilder.add_atom_with_velocity symbol px py pz fixed id m pvx pvy pvz
  end.

(** The C call an addition makes on builder handle [h]. *)
Definition call_of (h : option RKRConFrameBuilder) (a : addition) : call :=
  match a with
  | Plain symbol px py pz fixed id m =>
      Call_rkr_frame_add_atom h symbol px py pz fixed id m
  | Moving symbol px py pz fixed id m pvx pvy pvz =>
      Call_rkr_frame_add_atom_with_velocity h symbol px py pz fixed id m pvx pvy pvz
  end.

(** Additions made one after the other; the first that throws ends them. *)
Fixpoint add_all {e : Engine} (l : list addition) : M (ConFrameBuilder.t * World e) unit :=
  match l with
  | [] => ret tt
  | a :: l' => add a ;; add_all l'
  end.

(** The release a [free_rkr_frame] logs for a handle, none for null. *)
Definition frame_release (h : option RKRConFrame) : list event :=
  match h with
  | Some p => [(Call_free_rkr_frame p, R_void)]
  | None => []
  end.

(** [extend] called with one batch after the other on one writer; the first
    call that throws ends them. *)
Fixpoint extend_all {e : Engine} (batches : list (list ConFrame.t))
  : M (ConFrameWriter.t * World e) unit :=
  match batches with
  | [] => ret tt
  | frames :: batches' => ConFrameWriter.extend frames ;; extend_all batches'
  end.

(** [!frames.empty()]. *)
Definition nonempty (frames : list ConFrame.t) : bool :=
  match frames with
  | [] => false
  | _ :: _ => true
  end.

(** What a builder's destructor logs for a handle, nothing for null. *)
Definition builder_release (h : option RKRConFrameBuilder) : list event :=
  match h with
  | Some p => [(Call_free_rkr_frame_builder p, R_void)]
  | None => []
  end.

(** More concrete inputs: the first frame of ["two.con"] after its first
    access, and two builders of the in-memory engine. *)
Module Samples.

Definition water_frame : ConFrame.t :=
  Eval vm_compute in fst (snd (access Acc_atoms (Fixtures.first_frame, Fixtures.w2))).

Definition second_builder : ConFrameBuilder.t := ConFrameBuilder.mk (Some 2%positive).
Definition two_builders : World Sim.engine :=
  Eval vm_compute in
    snd (ConFrameBuilder.ConFrameBuilder (5%Z, 5%Z, 5%Z) (90%Z, 90%Z, 90%Z)
           ConFrameBuilder.default_header ConFrameBuilder.default_header Fixtures.u1).

End Samples.

(** ** Stepping through the monad *)

Lemma bind_ok {S A B : Type} (m : M S A) (k : A -> M S B) (s s' : S) (a : A) :
  m s = (Ok a, s') -> bind m k s = k a s'.
Proof. intros Hm. unfold bind. rewrite Hm. reflexivity. Qed.

Lemma count_app (p : event -> bool) (l l' : list event) :
  count p (l ++ l') = count p l + count p l'.
Proof. unfold count. rewrite filter_app, length_app. reflexivity. Qed.

(** ** ConFrame: materialization *)

Lemma emplace_atoms_app (c_atoms : list CAtom) :
  forall cache, ConFrame.emplace_atoms cache c_atoms = cache ++ map ConFrame.atom_of c_atoms.
Proof.
  unfold ConFrame.emplace_atoms.
  induction c_atoms as [| a l IH]; intros cache; simpl.
  - now rewrite app_nil_r.
  - rewrite IH, <- app_assoc. reflexivity.
Qed.

Lemma get_and_free_string_runs {e : Engine} (h : option RKRConFrame) (is_prebox : bool)
    (index : size_t) (w : World e) :
  exists w',
    let r := fst (on_rkr_frame_get_header_line_cpp e h is_prebox index (eng w)) in
    ConFrame.get_and_free_string h is_prebox index w = (Ok (header_text r), w')
    /\ trace w' = trace w ++ header_events h is_prebox index r
    /\ next_addr w' = next_addr w.
Proof.
  unfold ConFrame.get_and_free_string, rkr_frame_get_header_line_cpp, rkr_free_string,
    ffi_void, ffi, bind, ret, header_events.
  destruct (on_rkr_frame_get_header_line_cpp e h is_prebox index (eng w)) as [[s |] st];
    simpl; eexists; repeat split; simpl; try reflexivity.
  now rewrite <- app_assoc.
Qed.

Lemma cache_data_cached {e : Engine} (f : ConFrame.t) (w : World e) :
  ConFrame.is_cached_ f = true -> ConFrame.cache_data (f, w) = (Ok tt, (f, w)).
Proof.
  intros Hc. unfold ConFrame.cache_data, bind, this. simpl. rewrite Hc. reflexivity.
Qed.

Lemma cache_data_null_snapshot {e : Engine} (f : ConFrame.t) (w : World e) :
  ConFrame.is_cached_ f = false ->
  fst (on_rkr_frame_to_c_frame e (ConFrame.frame_handle_ f) (eng w)) = None ->
  exists w',
    ConFrame.cache_data (f, w)
    = (Throw "Failed to extract CFrame from handle for caching.", (f, w'))
    /\ trace w' = trace w ++ [(Call_rkr_frame_to_c_frame (ConFrame.frame_handle_ f),
                               R_c_frame None)]
    /\ next_addr w' = next_addr w.
Proof.
  intros Hc Hq.
  unfold ConFrame.cache_data, bind, this, extern, rkr_frame_to_c_frame, ffi, throw.
  cbn [fst snd]. rewrite Hc. cbn [fst snd].
  destruct (on_rkr_frame_to_c_frame e (ConFrame.frame_handle_ f) (eng w)) as [r st].
  cbn [fst] in Hq. subst r. eexists. split; [reflexivity | split; reflexivity].
Qed.

Lemma cache_data_materializes {e : Engine} (f : ConFrame.t) (w : World e) (cf : CFrame) :
  ConFrame.is_cached_ f = false ->
  fst (on_rkr_frame_to_c_frame e (ConFrame.frame_handle_ f) (eng w)) = Some cf ->
  exists r1 r2 r3 r4 w',
    ConFrame.cache_data (f, w) = (Ok tt, (materialized f cf r1 r2 r3 r4, w'))
    /\ trace w' = trace w ++ materialization_log (ConFrame.frame_handle_ f) cf r1 r2 r3 r4
    /\ next_addr w' = next_addr w.
Proof.
  intros Hc Hq.
  unfold ConFrame.cache_data.
  rewrite (bind_ok this _ (f, w) (f, w) f) by reflexivity.
  rewrite Hc.
  destruct (on_rkr_frame_to_c_frame e (ConFrame.frame_handle_ f) (eng w)) as [r st] eqn:Hs.
  simpl in Hq. subst r.
  set (h := ConFrame.frame_handle_ f) in *.
  set (w1 := mkWorld (on_free_c_frame e cf st)
                     (trace w ++ [(Call_rkr_frame_to_c_frame h, R_c_frame (Some cf));
                                  (Call_free_c_frame cf, R_void)])
                     (next_addr w)).
  destruct (get_and_free_string_runs h true 0%N w1) as (w2 & G1 & T1 & A1).
  destruct (get_and_free_string_runs h true 1%N w2) as (w3 & G2 & T2 & A2).
  destruct (get_and_free_string_runs h false 0%N w3) as (w4 & G3 & T3 & A3).
  destruct (get_and_free_string_runs h false 1%N w4) as (w5 & G4 & T4 & A4).
  cbv zeta in G1, G2, G3, G4, T1, T2, T3, T4.
  eexists _, _, _, _, w5.
  split; [| split].
  - cbv beta iota.
    unfold bind at 1. unfold extern at 1, rkr_frame_to_c_frame, ffi. cbn [fst snd].
    fold h. rewrite Hs.
    unfold bind, assign, extern, free_c_frame, ffi_void, ffi. cbn [fst snd eng trace next_addr].
    rewrite <- app_assoc. cbn [app].
    change (mkWorld (on_free_c_frame e cf st)
                    (trace w ++ [(Call_rkr_frame_to_c_frame h, R_c_frame (Some cf));
                                 (Call_free_c_frame cf, R_void)])
                    (next_addr w)) with w1.
    rewrite G1. cbn [fst snd]. rewrite G2. cbn [fst snd]. rewrite G3. cbn [fst snd].
    rewrite G4. cbn [fst snd].
    unfold materialized, ConFrame.set_is_cached_, ConFrame.set_postbox_header_cache_,
      ConFrame.set_prebox_header_cache_, ConFrame.store0, ConFrame.store1. simpl.
    rewrite emplace_atoms_app. reflexivity.
  - rewrite T4, T3, T2, T1. unfold materialization_log, w1. simpl.
    repeat rewrite <- app_assoc. reflexivity.
  - rewrite A4, A3, A2, A1. reflexivity.
Qed.

Lemma access_after_cache_data {e : Engine} (a : accessor) (f f' : ConFrame.t)
    (w w' : World e) :
  ConFrame.cache_data (f, w) = (Ok tt, (f', w')) ->
  access a (f, w) = (Ok (cache_of a f'), (f', w')).
Proof.
  intros Hc.
  destruct a; unfold access, ConFrame.cell, ConFrame.angles, ConFrame.atoms,
    ConFrame.prebox_header, ConFrame.postbox_header, ConFrame.has_velocities;
    unfold bind at 1; unfold bind at 1; rewrite Hc; reflexivity.
Qed.

Lemma access_cache_data_throws {e : Engine} (a : accessor) (f f' : ConFrame.t)
    (w w' : World e) (what : string) :
  ConFrame.cache_data (f, w) = (Throw what, (f', w')) ->
  access a (f, w) = (Throw what, (f', w')).
Proof.
  intros Hc.
  destruct a; unfold access, ConFrame.cell, ConFrame.angles, ConFrame.atoms,
    ConFrame.prebox_header, ConFrame.postbox_header, ConFrame.has_velocities;
    unfold bind at 1; unfold bind at 1; rewrite Hc; reflexivity.
Qed.

Lemma access_cached {e : Engine} (a : accessor) (f : ConFrame.t) (w : World e) :
  ConFrame.is_cached_ f = true -> access a (f, w) = (Ok (cache_of a f), (f, w)).
Proof.
  intros Hc. apply access_after_cache_data. now apply cache_data_cached.
Qed.

Lemma header_queries_of_log (h : option RKRConFrame) (cf : CFrame)
    (r1 r2 r3 r4 : option string) :
  filter is_header_query (materialization_log h cf r1 r2 r3 r4)
  = [(Call_rkr_frame_get_header_line_cpp h true 0%N, R_string r1);
     (Call_rkr_frame_get_header_line_cpp h true 1%N, R_string r2);
     (Call_rkr_frame_get_header_line_cpp h false 0%N, R_string r3);
     (Call_rkr_frame_get_header_line_cpp h false 1%N, R_string r4)].
Proof. destruct r1, r2, r3, r4; reflexivity. Qed.

Lemma requests_of_log (h : option RKRConFrame) (cf : CFrame)
    (r1 r2 r3 r4 : option string) :
  filter is_request (materialization_log h cf r1 r2 r3 r4)
  = (Call_rkr_frame_to_c_frame h, R_c_frame (Some cf))
    :: filter is_header_query (materialization_log h cf r1 r2 r3 r4).
Proof. destruct r1, r2, r3, r4; reflexivity. Qed.

Lemma snapshot_queries_of_log (h : option RKRConFrame) (cf : CFrame)
    (r1 r2 r3 r4 : option string) :
  filter is_snapshot_query (materialization_log h cf r1 r2 r3 r4)
  = [(Call_rkr_frame_to_c_frame h, R_c_frame (Some cf))].
Proof. destruct r1, r2, r3, r4; reflexivity. Qed.

(** ** ConFrame: the claims *)

(** C1, as stated, fails.  A frame that was moved from before its first
    access keeps [is_cached_ = false] and a null handle.  On the in-memory
    engine its first [atoms()] makes one snapshot query, gets null, throws and
    makes no header query; the second [atoms()] asks the engine for the
    snapshot again instead of returning cached values. *)
Lemma C1_counterexample :
  let what := "Failed to extract CFrame from handle for caching." in
  let q := (Call_rkr_frame_to_c_frame None, R_c_frame None) in
  let stale := snd (ConFrame.move (ConFrame.ConFrame (Some 2%positive))) in
  exists w1 w2 : World Sim.engine,
    ConFrame.is_cached_ stale = false
    /\ ConFrame.frame_handle_ stale = None
    /\ access Acc_atoms (stale, Fixtures.w0) = (Throw what, (stale, w1))
    /\ trace w1 = [q]
    /\ count is_header_query (trace w1) = 0
    /\ access Acc_atoms (stale, w1) = (Throw what, (stale, w2))
    /\ trace w2 = [q; q]
    /\ count is_snapshot_query (trace w2) = 2.
Proof.
  cbv zeta. do 2 eexists.
  split; [reflexivity |].
  split; [reflexivity |].
  split; [vm_compute; reflexivity |].
  split; [reflexivity |].
  split; [reflexivity |].
  split; [vm_compute; reflexivity |].
  split; reflexivity.
Qed.

(** C1, amended.  The first accessor call on a freshly constructed frame
    makes exactly one snapshot query.  If the engine answers with a snapshot,
    the call also makes exactly one query per header line (four) and no other
    request, returns the value copied from the snapshot, and from then on
    every accessor call, in whatever state the world is, returns the cached
    value and leaves the frame, the engine and the call log untouched.  If
    the engine answers null, the call throws after that single query, the
    frame is left uncached, and the next accessor call queries the engine
    again. *)
Theorem C1_materialize_once {e : Engine} (h : option RKRConFrame) (w : World e)
    (a : accessor) :
  let f0 := ConFrame.ConFrame h in
  match fst (on_rkr_frame_to_c_frame e h (eng w)) with
  | Some cf =>
      exists (f1 : ConFrame.t) (w1 : World e) (added : list event),
        access a (f0, w) = (Ok (cache_of a f1), (f1, w1))
        /\ trace w1 = trace w ++ added
        /\ count is_snapshot_query added = 1
        /\ count is_header_query added = 4
        /\ count is_request added = 5
        /\ ConFrame.cell_cache_ f1 = c_cell cf
        /\ ConFrame.angles_cache_ f1 = c_angles cf
        /\ ConFrame.has_velocities_cache_ f1 = c_has_velocities cf
        /\ ConFrame.atoms_cache_ f1 = map ConFrame.atom_of (c_atoms cf)
        /\ (forall (b : accessor) (w2 : World e),
              access b (f1, w2) = (Ok (cache_of b f1), (f1, w2)))
  | None =>
      exists (what : string) (w1 : World e),
        access a (f0, w) = (Throw what, (f0, w1))
        /\ trace w1 = trace w ++ [(Call_rkr_frame_to_c_frame h, R_c_frame None)]
        /\ (forall b : accessor,
              exists r f2 w2,
                access b (f0, w1) = (r, (f2, w2))
                /\ count is_snapshot_query (trace w2)
                   = S (count is_snapshot_query (trace w1)))
  end.
Proof.
  intros f0.
  assert (Hf0 : ConFrame.is_cached_ f0 = false) by reflexivity.
  assert (Hh : ConFrame.frame_handle_ f0 = h) by reflexivity.
  assert (Once : forall (b : accessor) (w1 : World e),
            exists r f2 w2,
              access b (f0, w1) = (r, (f2, w2))
              /\ count is_snapshot_query (trace w2)
                 = S (count is_snapshot_query (trace w1))).
  { intros b w1.
    destruct (fst (on_rkr_frame_to_c_frame e (ConFrame.frame_handle_ f0) (eng w1)))
      as [cf |] eqn:Hq.
    - destruct (cache_data_materializes f0 w1 cf Hf0 Hq)
        as (r1 & r2 & r3 & r4 & w2 & Hrun & Htr & _).
      exists (Ok (cache_of b (materialized f0 cf r1 r2 r3 r4))),
             (materialized f0 cf r1 r2 r3 r4), w2.
      split; [now apply access_after_cache_data |].
      rewrite Htr, count_app. unfold count at 2.
      rewrite snapshot_queries_of_log. simpl. lia.
    - destruct (cache_data_null_snapshot f0 w1 Hf0 Hq) as (w2 & Hrun & Htr & _).
      exists (Throw "Failed to extract CFrame from handle for caching."), f0, w2.
      split; [now apply access_cache_data_throws |].
      rewrite Htr, count_app. unfold count at 2. simpl. lia. }
  destruct (fst (on_rkr_frame_to_c_frame e h (eng w))) as [cf |] eqn:Hq.
  - rewrite <- Hh in Hq.
    destruct (cache_data_materializes f0 w cf Hf0 Hq)
      as (r1 & r2 & r3 & r4 & w1 & Hrun & Htr & _).
    exists (materialized f0 cf r1 r2 r3 r4), w1, (materialization_log h cf r1 r2 r3 r4).
    split; [now apply access_after_cache_data |].
    split; [exact Htr |].
    unfold count.
    rewrite snapshot_queries_of_log, requests_of_log, header_queries_of_log.
    repeat (split; [reflexivity |]).
    intros b w2. now apply access_cached.
  - rewrite <- Hh in Hq.
    destruct (cache_data_null_snapshot f0 w Hf0 Hq) as (w1 & Hrun & Htr & _).
    exists "Failed to extract CFrame from handle for caching.", w1.
    split; [now apply access_cache_data_throws |].
    split; [exact Htr |].
    intros b. apply Once.
Qed.

(** On ["two.con"] the first access asks for the snapshot once and for each
    of the four header lines once; the second access adds nothing to the
    log and returns the same atoms. *)
Example water_is_fetched_once :
  exists v f1 w',
    access Acc_atoms (Fixtures.first_frame, Fixtures.w2) = (Ok v, (f1, w'))
    /\ count is_snapshot_query (trace w') = 1
    /\ count is_header_query (trace w') = 4
    /\ access Acc_atoms (f1, w') = (Ok v, (f1, w'))
    /\ access Acc_cell (f1, w') = (Ok (V_array3 (10%Z, 10%Z, 10%Z)), (f1, w')).
Proof.
  do 3 eexists.
  split; [vm_compute; reflexivity |].
  repeat split; vm_compute; reflexivity.
Qed.

(** C4.  When the snapshot query succeeds, [cache_data] succeeds whatever the
    engine answers to the four header queries: each header entry is the text
    of the reply to its own query, and the empty string when that reply is
    null.  The numeric members are those of the snapshot and every accessor
    call made in place of [cache_data] returns normally. *)
Theorem C4_absent_header_is_empty {e : Engine} (f : ConFrame.t) (w : World e)
    (cf : CFrame) :
  ConFrame.is_cached_ f = false ->
  fst (on_rkr_frame_to_c_frame e (ConFrame.frame_handle_ f) (eng w)) = Some cf ->
  exists (r1 r2 r3 r4 : option string) (f' : ConFrame.t) (w' : World e)
         (added : list event),
    ConFrame.cache_data (f, w) = (Ok tt, (f', w'))
    /\ trace w' = trace w ++ added
    /\ filter is_header_query added
       = [(Call_rkr_frame_get_header_line_cpp (ConFrame.frame_handle_ f) true 0%N, R_string r1);
          (Call_rkr_frame_get_header_line_cpp (ConFrame.frame_handle_ f) true 1%N, R_string r2);
          (Call_rkr_frame_get_header_line_cpp (ConFrame.frame_handle_ f) false 0%N, R_string r3);
          (Call_rkr_frame_get_header_line_cpp (ConFrame.frame_handle_ f) false 1%N, R_string r4)]
    /\ ConFrame.prebox_header_cache_ f' = (header_text r1, header_text r2)
    /\ ConFrame.postbox_header_cache_ f' = (header_text r3, header_text r4)
    /\ (r1 = None -> fst (ConFrame.prebox_header_cache_ f') = "")
    /\ (r2 = None -> snd (ConFrame.prebox_header_cache_ f') = "")
    /\ (r3 = None -> fst (ConFrame.postbox_header_cache_ f') = "")
    /\ (r4 = None -> snd (ConFrame.postbox_header_cache_ f') = "")
    /\ ConFrame.is_cached_ f' = true
    /\ ConFrame.cell_cache_ f' = c_cell cf
    /\ ConFrame.angles_cache_ f' = c_angles cf
    /\ ConFrame.has_velocities_cache_ f' = c_has_velocities cf
    /\ ConFrame.atoms_cache_ f' = ConFrame.atoms_cache_ f ++ map ConFrame.atom_of (c_atoms cf)
    /\ (forall a : accessor, access a (f, w) = (Ok (cache_of a f'), (f', w'))).
Proof.
  intros Hc Hq.
  destruct (cache_data_materializes f w cf Hc Hq)
    as (r1 & r2 & r3 & r4 & w' & Hrun & Htr & _).
  exists r1, r2, r3, r4, (materialized f cf r1 r2 r3 r4), w',
    (materialization_log (ConFrame.frame_handle_ f) cf r1 r2 r3 r4).
  split; [exact Hrun |].
  split; [exact Htr |].
  split; [apply header_queries_of_log |].
  split; [reflexivity |].
  split; [reflexivity |].
  split; [intros ->; reflexivity |].
  split; [intros ->; reflexivity |].
  split; [intros ->; reflexivity |].
  split; [intros ->; reflexivity |].
  repeat (split; [reflexivity |]).
  intros a. now apply access_after_cache_data.
Qed.

Lemma C4_witness :
  exists (r1 r2 r3 r4 : option string) (f' : ConFrame.t) (w' : World Sim.engine)
         (added : list event),
    ConFrame.cache_data (Fixtures.first_frame, Fixtures.w2) = (Ok tt, (f', w'))
    /\ trace w' = trace Fixtures.w2 ++ added
    /\ filter is_header_query added
       = [(Call_rkr_frame_get_header_line_cpp (Some 2%positive) true 0%N, R_string r1);
          (Call_rkr_frame_get_header_line_cpp (Some 2%positive) true 1%N, R_string r2);
          (Call_rkr_frame_get_header_line_cpp (Some 2%positive) false 0%N, R_string r3);
          (Call_rkr_frame_get_header_line_cpp (Some 2%positive) false 1%N, R_string r4)]
    /\ ConFrame.prebox_header_cache_ f' = (header_text r1, header_text r2)
    /\ ConFrame.postbox_header_cache_ f' = (header_text r3, header_text r4)
    /\ (r1 = None -> fst (ConFrame.prebox_header_cache_ f') = "")
    /\ (r2 = None -> snd (ConFrame.prebox_header_cache_ f') = "")
    /\ (r3 = None -> fst (ConFrame.postbox_header_cache_ f') = "")
    /\ (r4 = None -> snd (ConFrame.postbox_header_cache_ f') = "")
    /\ ConFrame.is_cached_ f' = true
    /\ ConFrame.cell_cache_ f' = (10%Z, 10%Z, 10%Z)
    /\ ConFrame.angles_cache_ f' = (90%Z, 90%Z, 90%Z)
    /\ ConFrame.has_velocities_cache_ f' = false
    /\ ConFrame.atoms_cache_ f'
       = [] ++ map ConFrame.atom_of [Fixtures.oxygen; Fixtures.hydrogen]
    /\ (forall a : accessor,
          access a (Fixtures.first_frame, Fixtures.w2) = (Ok (cache_of a f'), (f', w'))).
Proof.
  apply (C4_absent_header_is_empty Fixtures.first_frame Fixtures.w2
           (Sim.snapshot Fixtures.water)); reflexivity.
Defined.

(** The lines ["two.con"] lacks read as empty strings. *)
Example water_headers :
  fst (ConFrame.prebox_header (Fixtures.first_frame, Fixtures.w2)) = Ok ("generated", "")
  /\ fst (ConFrame.postbox_header (Fixtures.first_frame, Fixtures.w2)) = Ok ("", "").
Proof. split; reflexivity. Qed.

(** C5.  When the engine answers the snapshot query of an uncached frame with
    null, the accessor that triggered the query throws
    [std::runtime_error]; it returns no value, leaves the frame uncached and
    has asked the engine for nothing else. *)
Theorem C5_null_snapshot_throws {e : Engine} (f : ConFrame.t) (w : World e)
    (a : accessor) :
  ConFrame.is_cached_ f = false ->
  fst (on_rkr_frame_to_c_frame e (ConFrame.frame_handle_ f) (eng w)) = None ->
  exists w' : World e,
    access a (f, w)
    = (Throw "Failed to extract CFrame from handle for caching.", (f, w'))
    /\ trace w' = trace w ++ [(Call_rkr_frame_to_c_frame (ConFrame.frame_handle_ f),
                               R_c_frame None)].
Proof.
  intros Hc Hq.
  destruct (cache_data_null_snapshot f w Hc Hq) as (w' & Hrun & Htr & _).
  exists w'. split; [now apply access_cache_data_throws | exact Htr].
Qed.

Lemma C5_witness :
  exists w' : World Sim.engine,
    access Acc_cell (Fixtures.stale, Fixtures.w2)
    = (Throw "Failed to extract CFrame from handle for caching.", (Fixtures.stale, w'))
    /\ trace w' = trace Fixtures.w2 ++ [(Call_rkr_frame_to_c_frame None, R_c_frame None)].
Proof.
  apply (C5_null_snapshot_throws Fixtures.stale Fixtures.w2 Acc_cell); reflexivity.
Defined.

(** ** ConFrameIterator: fetching *)

Import ConFrameIterator.

Lemma fetch_next_frame_runs {e : Engine} (it : Iterator.t) (w : World e) :
  exists (it' : Iterator.t) (w' : World e),
    let fr := fst (on_con_frame_iterator_next e (Iterator.iterator_ptr_ it) (eng w)) in
    Iterator.fetch_next_frame (it, w) = (Ok tt, (it', w'))
    /\ trace w' = trace w
                  ++ (Call_con_frame_iterator_next (Iterator.iterator_ptr_ it), R_frame fr)
                     :: release_held it
    /\ Iterator.iterator_ptr_ it' = Iterator.iterator_ptr_ it
    /\ Iterator.current_frame_ it'
       = match fr with
         | Some h => Some (next_addr w, ConFrame.ConFrame (Some h))
         | None => None
         end.
Proof.
  unfold Iterator.fetch_next_frame, Iterator.assign_current_frame_, release_held,
    held_handle, ConFrame.destroy, ConFrame.FrameDeleter, ConFrame.get_handle,
    con_frame_iterator_next, free_rkr_frame, cxx_new, ffi_void, ffi,
    bind, this, assign, extern, ret.
  cbn [fst snd].
  destruct (on_con_frame_iterator_next e (Iterator.iterator_ptr_ it) (eng w)) as [fr st].
  destruct it as [p [[a [[q |] c1 c2 c3 c4 c5 c6 c7]] |]], fr as [h |];
    cbn; eexists _, _; repeat split; rewrite <- ?app_assoc; reflexivity.
Qed.

Lemma held_handle_fetched (it' : Iterator.t) (fr : option RKRConFrame) (a : nat) :
  Iterator.current_frame_ it'
  = match fr with
    | Some h => Some (a, ConFrame.ConFrame (Some h))
    | None => None
    end ->
  held_handle it' = fr.
Proof. intros H. unfold held_handle. rewrite H. now destruct fr. Qed.

Lemma Iterator_of_session {e : Engine} (p : CConFrameIterator) (w : World e) :
  exists (it : Iterator.t) (w' : World e),
    let fr := fst (on_con_frame_iterator_next e (Some p) (eng w)) in
    Iterator.Iterator (Some p) w = (Ok it, w')
    /\ trace w' = trace w ++ [(Call_con_frame_iterator_next (Some p), R_frame fr)]
    /\ held_handle it = fr
    /\ (fr = None <-> Iterator.current_frame_ it = None)
    /\ eng w' = snd (on_con_frame_iterator_next e (Some p) (eng w)).
Proof.
  destruct (fetch_next_frame_runs (Iterator.mk (Some p) None) w)
    as (it & w' & Hrun & Htr & _ & Hcur).
  cbv zeta in *. cbn [Iterator.iterator_ptr_] in *.
  exists it, w'.
  split; [unfold Iterator.Iterator, construct; now rewrite Hrun |].
  split; [exact Htr |].
  split; [now apply held_handle_fetched with (a := next_addr w) |].
  split.
  - rewrite Hcur.
    destruct (fst (on_con_frame_iterator_next e (Some p) (eng w))); split; congruence.
  - revert Hrun.
    unfold Iterator.fetch_next_frame, Iterator.assign_current_frame_,
      con_frame_iterator_next, cxx_new, ffi, bind, this, assign, extern, ret.
    cbn [fst snd Iterator.iterator_ptr_ Iterator.current_frame_].
    destruct (on_con_frame_iterator_next e (Some p) (eng w)) as [[h |] st];
      cbn; intros [= _ <-]; reflexivity.
Qed.

Lemma ConFrameIterator_opens {e : Engine} (path : string) (w w1 : World e)
    (c : ConFrameIterator.t) :
  ConFrameIterator.ConFrameIterator path w = (Ok c, w1) ->
  exists p : CConFrameIterator,
    c = ConFrameIterator.mk (Some p)
    /\ trace w1 = trace w ++ [(Call_read_con_file_iterator path, R_iterator (Some p))].
Proof.
  unfold ConFrameIterator.ConFrameIterator, read_con_file_iterator, ffi, bind, throw, ret.
  destruct (on_read_con_file_iterator e path (eng w)) as [[p |] st]; [| discriminate].
  intros [= <- <-]. exists p. split; reflexivity.
Qed.

(** ** ConFrameIterator: the claims *)

(** C2, as stated, fails.  Constructing a [ConFrameIterator] on ["two.con"]
    makes one call, the one that opens the file; no frame is requested. *)
Lemma C2_counterexample :
  exists (c : ConFrameIterator.t) (w1 : World Sim.engine),
    ConFrameIterator.ConFrameIterator "two.con" Fixtures.w0 = (Ok c, w1)
    /\ trace w1 = [(Call_read_con_file_iterator "two.con", R_iterator (Some 1%positive))]
    /\ count is_fetch (trace w1) = 0.
Proof. do 2 eexists. split; [vm_compute; reflexivity | split; reflexivity]. Qed.

(** C2, amended.  Construction from a path only opens the file: its single
    call is [read_con_file_iterator] and it fetches no frame.  The first frame
    is fetched by [begin()], which makes exactly one
    [con_frame_iterator_next] call on the session; [end()] makes no call, and
    [begin()] compares equal to [end()] exactly when that first fetch
    returned null, so an empty sequence shows without an explicit advance. *)
Theorem C2_begin_makes_the_first_fetch {e : Engine} (path : string) (w w1 : World e)
    (c : ConFrameIterator.t) :
  ConFrameIterator.ConFrameIterator path w = (Ok c, w1) ->
  exists (p : CConFrameIterator) (it last : Iterator.t) (w2 : World e),
    let fr := fst (on_con_frame_iterator_next e (Some p) (eng w1)) in
    trace w1 = trace w ++ [(Call_read_con_file_iterator path, R_iterator (Some p))]
    /\ count is_fetch (trace w1) = count is_fetch (trace w)
    /\ ConFrameIterator.begin c w1 = (Ok it, w2)
    /\ trace w2 = trace w1 ++ [(Call_con_frame_iterator_next (Some p), R_frame fr)]
    /\ held_handle it = fr
    /\ ConFrameIterator.end_ c w2 = (Ok last, w2)
    /\ (Iterator.operator_ne it last = false <-> fr = None).
Proof.
  intros Hopen.
  destruct (ConFrameIterator_opens path w w1 c Hopen) as (p & -> & Htr).
  destruct (Iterator_of_session p w1) as (it & w2 & Hrun & Htr2 & Hheld & Hnone & _).
  cbv zeta in *.
  exists p, it, (Iterator.mk None None), w2.
  split; [exact Htr |].
  split; [rewrite Htr, count_app; unfold count at 2; simpl; lia |].
  split; [exact Hrun |].
  split; [exact Htr2 |].
  split; [exact Hheld |].
  split; [reflexivity |].
  rewrite Hnone. unfold Iterator.operator_ne. cbn [Iterator.current_frame_ Iterator.get option_map].
  destruct (Iterator.current_frame_ it) as [[a f] |]; cbn; split; congruence.
Qed.

Lemma C2_witness :
  exists (p : CConFrameIterator) (it last : Iterator.t) (w2 : World Sim.engine),
    trace Fixtures.v1
    = trace Fixtures.w0 ++ [(Call_read_con_file_iterator "empty.con", R_iterator (Some p))]
    /\ count is_fetch (trace Fixtures.v1) = count is_fetch (trace Fixtures.w0)
    /\ ConFrameIterator.begin Fixtures.no_frames Fixtures.v1 = (Ok it, w2)
    /\ trace w2
       = trace Fixtures.v1
         ++ [(Call_con_frame_iterator_next (Some p),
              R_frame (fst (Sim.next (Some p) (eng Fixtures.v1))))]
    /\ held_handle it = fst (Sim.next (Some p) (eng Fixtures.v1))
    /\ ConFrameIterator.end_ Fixtures.no_frames w2 = (Ok last, w2)
    /\ (Iterator.operator_ne it last = false
        <-> fst (Sim.next (Some p) (eng Fixtures.v1)) = None).
Proof.
  apply (C2_begin_makes_the_first_fetch "empty.con" Fixtures.w0 Fixtures.v1
           Fixtures.no_frames).
  reflexivity.
Defined.

(** On the empty file [begin()] already equals [end()]; on ["two.con"] it
    does not. *)
Example empty_file_shows_at_begin :
  (exists it w2,
      ConFrameIterator.begin Fixtures.no_frames Fixtures.v1 = (Ok it, w2)
      /\ Iterator.operator_ne it (Iterator.mk None None) = false)
  /\ (exists it w2,
         ConFrameIterator.begin Fixtures.frames Fixtures.w1 = (Ok it, w2)
         /\ Iterator.operator_ne it (Iterator.mk None None) = true).
Proof. split; do 2 eexists; split; reflexivity. Qed.



(** The fixtures are what the wrapper computes on ["two.con"]. *)
Example two_con_positions :
  ConFrameIterator.begin Fixtures.frames Fixtures.w1 = (Ok Fixtures.at_first, Fixtures.w2)
  /\ Iterator.operator_incr (Fixtures.at_first, Fixtures.w2)
     = (Ok tt, (Fixtures.at_second, Fixtures.w3))
  /\ trace Fixtures.w3
     = [(Call_read_con_file_iterator "two.con", R_iterator (Some 1%positive));
        (Call_con_frame_iterator_next (Some 1%positive), R_frame (Some 2%positive));
        (Call_con_frame_iterator_next (Some 1%positive), R_frame (Some 3%positive));
        (Call_free_rkr_frame 2%positive, R_void)].
Proof. repeat split; vm_compute; reflexivity. Qed.


(** C8.  On a successfully constructed [ConFrameIterator], two calls of
    [begin()] make two [con_frame_iterator_next] calls on the same session.
    The second position holds the reply to the second request: the very
    frame that advancing the first position would have fetched, not the
    frame the first [begin()] holds. *)
Theorem C8_begin_is_not_idempotent {e : Engine} (path : string) (w w1 : World e)
    (c : ConFrameIterator.t) :
  ConFrameIterator.ConFrameIterator path w = (Ok c, w1) ->
  exists (p : CConFrameIterator) (it1 it2 it1' : Iterator.t) (w2 w3 w3' : World e),
    ConFrameIterator.iterator_ptr_ c = Some p
    /\ ConFrameIterator.begin c w1 = (Ok it1, w2)
    /\ ConFrameIterator.begin c w2 = (Ok it2, w3)
    /\ trace w3
       = trace w1
         ++ [(Call_con_frame_iterator_next (Some p), R_frame (held_handle it1));
             (Call_con_frame_iterator_next (Some p), R_frame (held_handle it2))]
    /\ count is_fetch (trace w3) = 2 + count is_fetch (trace w1)
    /\ held_handle it1 = fst (on_con_frame_iterator_next e (Some p) (eng w1))
    /\ held_handle it2
       = fst (on_con_frame_iterator_next e (Some p)
                (snd (on_con_frame_iterator_next e (Some p) (eng w1))))
    /\ Iterator.operator_incr (it1, w2) = (Ok tt, (it1', w3'))
    /\ held_handle it1' = held_handle it2.
Proof.
  intros Hopen.
  destruct (ConFrameIterator_opens path w w1 c Hopen) as (p & -> & _).
  destruct (Iterator_of_session p w1) as (it1 & w2 & Hrun1 & Htr1 & Hheld1 & _ & Heng1).
  destruct (Iterator_of_session p w2) as (it2 & w3 & Hrun2 & Htr2 & Hheld2 & _ & _).
  destruct (fetch_next_frame_runs it1 w2) as (it1' & w3' & Hrun3 & _ & _ & Hcur3).
  cbv zeta in *.
  assert (Hptr : Iterator.iterator_ptr_ it1 = Some p).
  { revert Hrun1. unfold Iterator.Iterator, construct.
    destruct (fetch_next_frame_runs (Iterator.mk (Some p) None) w1)
      as (it & w' & Hrun & _ & Hp & _).
    rewrite Hrun. intros [= <- _]. exact Hp. }
  exists p, it1, it2, it1', w2, w3, w3'.
  split; [reflexivity |].
  split; [exact Hrun1 |].
  split; [exact Hrun2 |].
  split; [rewrite Htr2, Htr1, Hheld1, Hheld2, <- app_assoc; reflexivity |].
  split; [rewrite Htr2, Htr1, !count_app; unfold count at 2 3; simpl; lia |].
  split; [exact Hheld1 |].
  split; [rewrite Hheld2, Heng1; reflexivity |].
  split; [exact Hrun3 |].
  rewrite Hheld2. rewrite Hptr in Hcur3.
  now apply held_handle_fetched with (a := next_addr w2).
Qed.

Lemma C8_witness :
  exists (p : CConFrameIterator) (it1 it2 it1' : Iterator.t)
         (w2 w3 w3' : World Sim.engine),
    ConFrameIterator.iterator_ptr_ Fixtures.frames = Some p
    /\ ConFrameIterator.begin Fixtures.frames Fixtures.w1 = (Ok it1, w2)
    /\ ConFrameIterator.begin Fixtures.frames w2 = (Ok it2, w3)
    /\ trace w3
       = trace Fixtures.w1
         ++ [(Call_con_frame_iterator_next (Some p), R_frame (held_handle it1));
             (Call_con_frame_iterator_next (Some p), R_frame (held_handle it2))]
    /\ count is_fetch (trace w3) = 2 + count is_fetch (trace Fixtures.w1)
    /\ held_handle it1 = fst (Sim.next (Some p) (eng Fixtures.w1))
    /\ held_handle it2
       = fst (Sim.next (Some p) (snd (Sim.next (Some p) (eng Fixtures.w1))))
    /\ Iterator.operator_incr (it1, w2) = (Ok tt, (it1', w3'))
    /\ held_handle it1' = held_handle it2.
Proof.
  apply (C8_begin_is_not_idempotent "two.con" Fixtures.w0 Fixtures.w1 Fixtures.frames).
  reflexivity.
Defined.

(** On ["two.con"] the second [begin()] holds the second frame of the file:
    its atoms are the copper atom, not the water atoms. *)
Example second_begin_skips_water :
  exists it2 w3 f2,
    ConFrameIterator.begin Fixtures.frames Fixtures.w2 = (Ok it2, w3)
    /\ Iterator.operator_star it2 = Some f2
    /\ fst (ConFrame.atoms (f2, w3))
       = Ok (map ConFrame.atom_of (c_atoms (Sim.snapshot Fixtures.copper)))
    /\ fst (ConFrame.atoms (Fixtures.first_frame, w3))
       = Ok (map ConFrame.atom_of (c_atoms (Sim.snapshot Fixtures.water))).
Proof. do 3 eexists. repeat split. Qed.

(** ** ConFrameWriter: the claims *)

Lemma push_back_handles (frames : list ConFrame.t) :
  forall acc : list (option RKRConFrame),
    fold_left (fun handles frame => handles ++ [ConFrame.get_handle frame]) frames acc
    = acc ++ map ConFrame.get_handle frames.
Proof.
  induction frames as [| f fs IH]; intros acc; simpl.
  - now rewrite app_nil_r.
  - rewrite IH, <- app_assoc. reflexivity.
Qed.

Lemma collect_handles_map (frames : list ConFrame.t) :
  ConFrameWriter.collect_handles frames = map ConFrame.get_handle frames.
Proof. unfold ConFrameWriter.collect_handles. now rewrite push_back_handles. Qed.

(** C7.  [extend] on an empty vector returns at once: no call is added to
    the log and the engine state, files included, is the one before.  On a
    non-empty vector it makes exactly one [rkr_writer_extend] call, whose
    handle array lists the frames' handles in the order of the vector; it
    returns normally when the engine answers 0 and throws when the engine
    answers anything else. *)
Theorem C7_extend {e : Engine} (wr : ConFrameWriter.t) (w : World e)
    (f : ConFrame.t) (fs : list ConFrame.t) :
  ConFrameWriter.extend [] (wr, w) = (Ok tt, (wr, w))
  /\ exists w' : World e,
       let handles := map ConFrame.get_handle (f :: fs) in
       let reply := on_rkr_writer_extend e (ConFrameWriter.writer_handle_ wr) handles (eng w) in
       eng w' = snd reply
       /\ trace w'
          = trace w ++ [(Call_rkr_writer_extend (ConFrameWriter.writer_handle_ wr) handles,
                         R_int (fst reply))]
       /\ (fst reply = 0%Z -> ConFrameWriter.extend (f :: fs) (wr, w) = (Ok tt, (wr, w')))
       /\ (fst reply <> 0%Z ->
           ConFrameWriter.extend (f :: fs) (wr, w)
           = (Throw "Failed to write multiple frames.", (wr, w'))).
Proof.
  split; [reflexivity |].
  unfold ConFrameWriter.extend, rkr_writer_extend, ffi, bind, this, extern, ret, throw.
  cbn [fst snd]. rewrite collect_handles_map.
  destruct (on_rkr_writer_extend e (ConFrameWriter.writer_handle_ wr)
              (map ConFrame.get_handle (f :: fs)) (eng w)) as [rc st].
  exists (mkWorld st
            (trace w ++ [(Call_rkr_writer_extend (ConFrameWriter.writer_handle_ wr)
                            (map ConFrame.get_handle (f :: fs)), R_int rc)])
            (next_addr w)).
  cbn [fst snd].
  split; [reflexivity |].
  split; [reflexivity |].
  split.
  - intros ->. reflexivity.
  - intros Hrc. apply Z.eqb_neq in Hrc. rewrite Hrc. reflexivity.
Qed.

(** A batch that names a frame the engine no longer holds is refused. *)
Lemma C7_witness :
  exists w' : World Sim.engine,
    ConFrameWriter.extend [Fixtures.second_frame; Fixtures.stale] (Fixtures.writer, Fixtures.w4)
    = (Throw "Failed to write multiple frames.", (Fixtures.writer, w'))
    /\ trace w'
       = trace Fixtures.w4
         ++ [(Call_rkr_writer_extend (Some 4%positive) [Some 3%positive; None],
              R_int (-1)%Z)].
Proof.
  destruct (C7_extend Fixtures.writer Fixtures.w4 Fixtures.second_frame [Fixtures.stale])
    as (_ & w' & _ & Htr & _ & Hbad).
  exists w'. split; [apply Hbad; vm_compute; discriminate | exact Htr].
Defined.

(** The writer fixture is what the constructor returns on ["out.con"]. *)
Example writer_fixture :
  ConFrameWriter.ConFrameWriter "out.con" ConFrameWriter.default_precision Fixtures.w2'
  = (Ok Fixtures.writer, Fixtures.w4).
Proof. vm_compute. reflexivity. Qed.

(** Written in the order given: the second frame of ["two.con"] first. *)
Example extend_keeps_order :
  exists w',
    ConFrameWriter.extend [Fixtures.second_frame; Fixtures.first_frame]
                          (Fixtures.writer, Fixtures.w4)
    = (Ok tt, (Fixtures.writer, w'))
    /\ Sim.file "out.con" (Sim.disk (eng w')) = Some [Fixtures.copper; Fixtures.water].
Proof. eexists. split; vm_compute; reflexivity. Qed.

(** C9.  The constructor makes exactly one engine call.  With precision 6,
    which is also the default argument, the call is
    [create_writer_from_path_c]; with any other precision it is
    [create_writer_from_path_with_precision_c] with that precision.  In both
    cases a null reply makes the constructor throw, and a non-null reply
    becomes the writer's handle. *)
Theorem C9_writer_constructor {e : Engine} (path : string) (precision : uint8_t)
    (w : World e) :
  exists (p : option RKRConFrameWriter) (w' : World e),
    ConFrameWriter.default_precision = 6%N
    /\ (precision = 6%N ->
        p = fst (on_create_writer_from_path_c e path (eng w))
        /\ trace w' = trace w ++ [(Call_create_writer_from_path_c path, R_writer p)])
    /\ (precision <> 6%N ->
        p = fst (on_create_writer_from_path_with_precision_c e path precision (eng w))
        /\ trace w'
           = trace w ++ [(Call_create_writer_from_path_with_precision_c path precision,
                          R_writer p)])
    /\ (p = None ->
        ConFrameWriter.ConFrameWriter path precision w
        = (Throw ("Failed to create writer for file: " ++ path)%string, w'))
    /\ (forall h : RKRConFrameWriter,
          p = Some h ->
          ConFrameWriter.ConFrameWriter path precision w
          = (Ok (ConFrameWriter.mk (Some h)), w')).
Proof.
  unfold ConFrameWriter.ConFrameWriter, create_writer_from_path_c,
    create_writer_from_path_with_precision_c, ffi, bind, ret, throw.
  destruct (N.eqb_spec precision 6) as [-> | Hne].
  - destruct (on_create_writer_from_path_c e path (eng w)) as [p st].
    exists p, (mkWorld st (trace w ++ [(Call_create_writer_from_path_c path, R_writer p)])
                       (next_addr w)).
    cbn [fst snd].
    split; [reflexivity |].
    split; [intros _; split; reflexivity |].
    split; [intros Hne; now contradiction Hne |].
    split; [intros -> | intros h ->]; reflexivity.
  - destruct (on_create_writer_from_path_with_precision_c e path precision (eng w))
      as [p st].
    exists p, (mkWorld st
                 (trace w ++ [(Call_create_writer_from_path_with_precision_c path precision,
                               R_writer p)])
                 (next_addr w)).
    cbn [fst snd].
    split; [reflexivity |].
    split; [intros Heq; now contradiction Hne |].
    split; [intros _; split; reflexivity |].
    split; [intros -> | intros h ->]; reflexivity.
Qed.

(** Precision 3 on a path the engine cannot create. *)
Lemma C9_witness :
  exists w' : World Sim.engine,
    ConFrameWriter.ConFrameWriter "" 3%N Fixtures.w0
    = (Throw "Failed to create writer for file: ", w')
    /\ trace w' = [(Call_create_writer_from_path_with_precision_c "" 3%N, R_writer None)].
Proof.
  destruct (C9_writer_constructor "" 3%N Fixtures.w0)
    as (p & w' & _ & _ & Hother & Hnull & _).
  destruct (Hother ltac:(discriminate)) as (Hp & Htr).
  exists w'. cbn in Hp. subst p. split; [apply Hnull; reflexivity | exact Htr].
Defined.

(** The default precision goes through the constructor without precision. *)
Example default_precision_call :
  trace (snd (ConFrameWriter.ConFrameWriter "out.con" ConFrameWriter.default_precision
                Fixtures.w0))
  = [(Call_create_writer_from_path_c "out.con", R_writer (Some 1%positive))]
  /\ trace (snd (ConFrameWriter.ConFrameWriter "out.con" 17%N Fixtures.w0))
     = [(Call_create_writer_from_path_with_precision_c "out.con" 17%N,
         R_writer (Some 1%positive))].
Proof. split; reflexivity. Qed.

(** ** ConFrameBuilder: the claims *)

Lemma build_runs {e : Engine} (b : ConFrameBuilder.t) (w : World e) :
  let reply := on_rkr_frame_builder_build e (ConFrameBuilder.builder_handle_ b) (eng w) in
  ConFrameBuilder.build (b, w)
  = (match fst reply with
     | Some h => Ok (ConFrame.ConFrame (Some h))
     | None => Throw "Failed to build frame from builder."
     end,
     (ConFrameBuilder.mk None,
      mkWorld (snd reply)
              (trace w ++ [(Call_rkr_frame_builder_build (ConFrameBuilder.builder_handle_ b),
                            R_frame (fst reply))])
              (next_addr w))).
Proof.
  unfold ConFrameBuilder.build, ConFrameBuilder.set_builder_handle_,
    rkr_frame_builder_build, ffi, bind, this, assign, extern, ret, throw.
  cbn [fst snd].
  destruct (on_rkr_frame_builder_build e (ConFrameBuilder.builder_handle_ b) (eng w))
    as [[h |] st]; reflexivity.
Qed.






(** C10.  Whatever the engine answers, [build()] leaves the builder with a
    null handle: when it returns a frame and when it throws.  Its only call
    is [rkr_frame_builder_build] on the handle the builder held, and the
    destructor of the builder afterwards makes no call at all, so the
    consumed handle is not released a second time. *)
Theorem C10_build_always_invalidates {e : Engine} (b : ConFrameBuilder.t) (w : World e) :
  exists (r : result ConFrame.t) (b' : ConFrameBuilder.t) (w' : World e),
    let fr := fst (on_rkr_frame_builder_build e (ConFrameBuilder.builder_handle_ b) (eng w)) in
    ConFrameBuilder.build (b, w) = (r, (b', w'))
    /\ r = match fr with
           | Some h => Ok (ConFrame.ConFrame (Some h))
           | None => Throw "Failed to build frame from builder."
           end
    /\ ConFrameBuilder.builder_handle_ b' = None
    /\ trace w'
       = trace w ++ [(Call_rkr_frame_builder_build (ConFrameBuilder.builder_handle_ b),
                      R_frame fr)]
    /\ ConFrameBuilder.destroy b' w' = (Ok tt, w').
Proof.
  pose proof (build_runs b w) as Hrun. cbv zeta in Hrun.
  eexists _, _, _. cbv zeta.
  split; [exact Hrun |].
  repeat split.
Qed.

(** A builder without atoms: [build()] throws and still gives up the handle;
    the destructor then releases nothing, where the destructor of a builder
    that was never built releases its handle. *)
Example failed_build_leaves_null :
  exists w',
    ConFrameBuilder.build (Fixtures.builder, Fixtures.u1)
    = (Throw "Failed to build frame from builder.", (ConFrameBuilder.mk None, w'))
    /\ trace w'
       = trace Fixtures.u1 ++ [(Call_rkr_frame_builder_build (Some 1%positive), R_frame None)]
    /\ ConFrameBuilder.destroy (ConFrameBuilder.mk None) w' = (Ok tt, w')
    /\ trace (snd (ConFrameBuilder.destroy Fixtures.builder Fixtures.u1))
       = trace Fixtures.u1 ++ [(Call_free_rkr_frame_builder 1%positive, R_void)].
Proof. eexists. repeat split. Qed.

(** ** The reading functions *)

Lemma store_at_app {A : Type} (v : A) (pre : list A) :
  forall (a : A) (l : list A),
    store_at (List.length pre) v (pre ++ a :: l) = pre ++ v :: l.
Proof.
  induction pre as [| b pre IH]; intros a l; simpl.
  - reflexivity.
  - now rewrite IH.
Qed.

Lemma null_out_from (l : list (option RKRConFrame)) :
  forall pre : list (option RKRConFrame),
    fold_left (fun hs i => store_at i None hs)
              (seq (List.length pre) (List.length l)) (pre ++ l)
    = pre ++ repeat None (List.length l).
Proof.
  induction l as [| a l IH]; intros pre; simpl.
  - reflexivity.
  - rewrite store_at_app.
    replace (pre ++ None :: l) with ((pre ++ [None]) ++ l)
      by (rewrite <- app_assoc; reflexivity).
    replace (S (List.length pre)) with (List.length (pre ++ [None]))
      by (rewrite length_app; simpl; lia).
    rewrite IH, <- app_assoc. reflexivity.
Qed.

Lemma null_out_all (handles : list (option RKRConFrame)) :
  Reading.null_out handles (List.length handles) = repeat None (List.length handles).
Proof. exact (null_out_from handles []). Qed.

Lemma nth_firstn_skipn {A : Type} (d : A) (l : list A) :
  forall i n : nat,
    i < List.length l ->
    nth i l d :: firstn n (skipn (S i) l) = firstn (S n) (skipn i l).
Proof.
  induction l as [| a l IH]; intros i n Hi; simpl in Hi; [lia |].
  destruct i as [| i]; simpl.
  - reflexivity.
  - apply IH. lia.
Qed.

Lemma emplace_frames_runs {e : Engine} (handles : list (option RKRConFrame)) :
  forall (todo i : nat) (frames : list ConFrame.t) (rw : ReadWorld e),
    i + todo <= List.length handles ->
    Reading.emplace_frames handles i todo frames rw
    = (Ok (frames ++ map ConFrame.ConFrame (firstn todo (skipn i handles))), rw).
Proof.
  induction todo as [| todo IH]; intros i frames rw Hle.
  - simpl. unfold ret. now rewrite app_nil_r.
  - cbn [Reading.emplace_frames].
    unfold bind at 1. unfold Reading.in_world.
    cbn [ConFrame.move snd fst ConFrame.destroy ConFrame.frame_handle_ ConFrame.FrameDeleter].
    unfold ret at 1. destruct rw as [w rs]. cbn [world reads].
    rewrite IH by lia.
    rewrite <- (nth_firstn_skipn None handles i todo) by lia.
    rewrite <- app_assoc. reflexivity.
Qed.

(** X2.  [read_all_frames] throws when the engine returns a null array and
    then makes no other call.  Otherwise it returns one unmaterialized frame
    per array entry, in array order, each owning the handle of its entry (an
    empty array gives an empty vector, not an error); no frame is released
    on the way, and the array handed back to [free_rkr_frame_array] has every
    entry set to null, with the count the engine gave. *)
Theorem read_all_frames_takes_ownership {e : Engine} (rd : Reader e) (path : string)
    (rw : ReadWorld e) :
  let reply := on_rkr_read_all_frames rd path (eng (world rw)) in
  match fst reply with
  | None =>
      Reading.read_all_frames rd path rw
      = (Throw ("Failed to read frames from: " ++ path)%string,
         mkReadWorld (mkWorld (snd reply) (trace (world rw)) (next_addr (world rw)))
                     (reads rw ++ [Call_rkr_read_all_frames path None]))
  | Some handles =>
      let n := List.length handles in
      exists rw' : ReadWorld e,
        Reading.read_all_frames rd path rw = (Ok (map ConFrame.ConFrame handles), rw')
        /\ map ConFrame.get_handle (map ConFrame.ConFrame handles) = handles
        /\ reads rw'
           = reads rw ++ [Call_rkr_read_all_frames path (Some handles);
                          Call_free_rkr_frame_array (repeat None n) (N.of_nat n)]
        /\ trace (world rw') = trace (world rw)
        /\ eng (world rw')
           = on_free_rkr_frame_array rd (repeat None n) (N.of_nat n) (snd reply)
  end.
Proof.
  cbv zeta.
  destruct (on_rkr_read_all_frames rd path (eng (world rw))) as [[handles |] st] eqn:Hreply;
    cbn [fst snd].
  - eexists.
    split; [| split; [rewrite map_map; cbn; apply map_id |]].
    + unfold Reading.read_all_frames. unfold bind at 1.
      unfold Reading.rkr_read_all_frames, Reading.read_ffi. rewrite Hreply.
      unfold bind at 1.
      rewrite emplace_frames_runs by apply Nat.le_refl.
      cbn [skipn]. rewrite firstn_all, null_out_all.
      unfold bind, Reading.free_rkr_frame_array, Reading.read_ffi, ret.
      cbn [world reads eng trace next_addr]. reflexivity.
    + cbn [world reads eng trace next_addr]. rewrite <- app_assoc. repeat split.
  - unfold Reading.read_all_frames. unfold bind at 1.
    unfold Reading.rkr_read_all_frames, Reading.read_ffi. rewrite Hreply. reflexivity.
Qed.

(** X1.  [read_first_frame] makes one call.  On a null reply it throws, the
    path in the message.  Otherwise it returns a frame that owns the handle
    the engine returned and is not materialized: reading asked for no
    snapshot and no header line.  The first accessor call on that frame, in
    whatever world, opens with one snapshot query on that very handle, and
    destroying the frame releases that handle, once. *)
Theorem read_first_frame_is_lazy {e : Engine} (rd : Reader e) (path : string)
    (rw : ReadWorld e) :
  let reply := on_rkr_read_first_frame rd path (eng (world rw)) in
  let rw' :=
    mkReadWorld (mkWorld (snd reply) (trace (world rw)) (next_addr (world rw)))
                (reads rw ++ [Call_rkr_read_first_frame path (fst reply)]) in
  match fst reply with
  | None =>
      Reading.read_first_frame rd path rw
      = (Throw ("Failed to read first frame from: " ++ path)%string, rw')
  | Some h =>
      Reading.read_first_frame rd path rw = (Ok (ConFrame.ConFrame (Some h)), rw')
      /\ (forall (a : accessor) (w : World e),
            exists (r : result value) (f' : ConFrame.t) (w' : World e) (added : list event),
              access a (ConFrame.ConFrame (Some h), w) = (r, (f', w'))
              /\ trace w'
                 = trace w
                   ++ (Call_rkr_frame_to_c_frame (Some h),
                       R_c_frame (fst (on_rkr_frame_to_c_frame e (Some h) (eng w))))
                      :: added
              /\ count is_snapshot_query added = 0)
      /\ (forall w : World e,
            ConFrame.destroy (ConFrame.ConFrame (Some h)) w
            = (Ok tt,
               mkWorld (on_free_rkr_frame e h (eng w))
                       (trace w ++ [(Call_free_rkr_frame h, R_void)]) (next_addr w)))
  end.
Proof.
  cbv zeta.
  assert (Hread : Reading.read_first_frame rd path rw
                  = (match fst (on_rkr_read_first_frame rd path (eng (world rw))) with
                     | Some h => Ok (ConFrame.ConFrame (Some h))
                     | None => Throw ("Failed to read first frame from: " ++ path)%string
                     end,
                     mkReadWorld
                       (mkWorld (snd (on_rkr_read_first_frame rd path (eng (world rw))))
                                (trace (world rw)) (next_addr (world rw)))
                       (reads rw ++ [Call_rkr_read_first_frame path
                                       (fst (on_rkr_read_first_frame rd path (eng (world rw))))]))).
  { unfold Reading.read_first_frame, bind, Reading.rkr_read_first_frame, Reading.read_ffi.
    destruct (on_rkr_read_first_frame rd path (eng (world rw))) as [[h |] st]; reflexivity. }
  rewrite Hread.
  destruct (fst (on_rkr_read_first_frame rd path (eng (world rw)))) as [h |];
    [| reflexivity].
  split; [reflexivity |].
  split; [| reflexivity].
  intros a w.
  set (f := ConFrame.ConFrame (Some h)).
  assert (Hc : ConFrame.is_cached_ f = false) by reflexivity.
  destruct (fst (on_rkr_frame_to_c_frame e (ConFrame.frame_handle_ f) (eng w)))
    as [cf |] eqn:Hq.
  - destruct (cache_data_materializes f w cf Hc Hq)
      as (r1 & r2 & r3 & r4 & w' & Hrun & Htr & _).
    cbn [f ConFrame.ConFrame ConFrame.frame_handle_] in Hq, Htr.
    exists (Ok (cache_of a (materialized f cf r1 r2 r3 r4))),
      (materialized f cf r1 r2 r3 r4), w'.
    eexists.
    split; [now apply access_after_cache_data |].
    rewrite Hq.
    split; [exact Htr |].
    destruct r1, r2, r3, r4; reflexivity.
  - destruct (cache_data_null_snapshot f w Hc Hq) as (w' & Hrun & Htr & _).
    cbn [f ConFrame.ConFrame ConFrame.frame_handle_] in Hq, Htr.
    exists (Throw "Failed to extract CFrame from handle for caching."), f, w', [].
    split; [now apply access_cache_data_throws |].
    rewrite Hq. split; [exact Htr | reflexivity].
Qed.

(** On the disk of the fixtures: the two frames of ["two.con"] in file order,
    an empty vector for the empty file, and an exception for a missing one. *)
Example read_all_on_disk :
  (exists rw',
      Reading.read_all_frames SimReader.reader "two.con" SimReader.rw0
      = (Ok [ConFrame.ConFrame (Some 1%positive); ConFrame.ConFrame (Some 2%positive)], rw')
      /\ reads rw'
         = [Call_rkr_read_all_frames "two.con" (Some [Some 1%positive; Some 2%positive]);
            Call_free_rkr_frame_array [None; None] 2%N]
      /\ fst (ConFrame.cell (ConFrame.ConFrame (Some 2%positive), world rw'))
         = Ok (5%Z, 5%Z, 5%Z))
  /\ (exists rw',
         Reading.read_all_frames SimReader.reader "empty.con" SimReader.rw0 = (Ok [], rw'))
  /\ (exists rw',
         Reading.read_all_frames SimReader.reader "none.con" SimReader.rw0
         = (Throw "Failed to read frames from: none.con", rw'))
  /\ (exists rw',
         Reading.read_first_frame SimReader.reader "empty.con" SimReader.rw0
         = (Throw "Failed to read first frame from: empty.con", rw')).
Proof.
  split; [eexists; split; [vm_compute; reflexivity | split; vm_compute; reflexivity] |].
  repeat split; eexists; vm_compute; reflexivity.
Qed.

(** ** Advancing and looping *)

(** X3.  [operator++] releases the frame the position held before the call
    and nothing else: after the fetch, one [free_rkr_frame] on the handle of
    that frame, and no release at all when the position held no frame or a
    frame whose handle had been moved away.  The position then holds a frame
    exactly when the engine returned one; that frame owns the handle
    returned and is not materialized.  The session pointer of the position
    is the one before. *)
Theorem advance_releases_previous {e : Engine} (it : ConFrameIterator.Iterator.t)
    (w : World e) :
  exists (it' : ConFrameIterator.Iterator.t) (w' : World e) (added : list event),
    let fr := fst (on_con_frame_iterator_next
                     e (ConFrameIterator.Iterator.iterator_ptr_ it) (eng w)) in
    ConFrameIterator.Iterator.operator_incr (it, w) = (Ok tt, (it', w'))
    /\ trace w' = trace w ++ added
    /\ added
       = (Call_con_frame_iterator_next (ConFrameIterator.Iterator.iterator_ptr_ it),
          R_frame fr)
         :: frame_release (held_handle it)
    /\ filter is_release added = frame_release (held_handle it)
    /\ ConFrameIterator.Iterator.iterator_ptr_ it'
       = ConFrameIterator.Iterator.iterator_ptr_ it
    /\ (ConFrameIterator.Iterator.operator_star it' = None <-> fr = None)
    /\ (forall f : ConFrame.t,
          ConFrameIterator.Iterator.operator_star it' = Some f ->
          ConFrame.get_handle f = fr /\ ConFrame.is_cached_ f = false).
Proof.
  destruct (fetch_next_frame_runs it w) as (it' & w' & Hrun & Htr & Hptr & Hcur).
  cbv zeta in *.
  exists it', w'. eexists.
  split; [exact Hrun |].
  split; [exact Htr |].
  split; [reflexivity |].
  split; [cbn [filter is_release fst]; unfold release_held, frame_release;
          now destruct (held_handle it) |].
  split; [exact Hptr |].
  unfold ConFrameIterator.Iterator.operator_star. rewrite Hcur.
  destruct (fst (on_con_frame_iterator_next e _ (eng w))) as [h |]; cbn.
  - split; [split; discriminate |]. intros f [= <-]. split; reflexivity.
  - split; [split; reflexivity |]. discriminate.
Qed.

Lemma differs_from_empty (it last : ConFrameIterator.Iterator.t) :
  ConFrameIterator.Iterator.current_frame_ last = None ->
  ConFrameIterator.Iterator.operator_ne it last
  = match ConFrameIterator.Iterator.current_frame_ it with
    | Some _ => true
    | None => false
    end.
Proof.
  intros Hl. unfold ConFrameIterator.Iterator.operator_ne. rewrite Hl.
  now destruct (ConFrameIterator.Iterator.current_frame_ it) as [[a f] |].
Qed.

Lemma release_held_filters (it : ConFrameIterator.Iterator.t) :
  filter is_release (release_held it) = frame_release (held_handle it)
  /\ filter is_fetch (release_held it) = []
  /\ filter is_request (release_held it) = [].
Proof. unfold release_held, frame_release. now destruct (held_handle it). Qed.

Lemma for_each_runs {e : Engine} (last : ConFrameIterator.Iterator.t) :
  ConFrameIterator.Iterator.current_frame_ last = None ->
  forall (fuel : nat) (it : ConFrameIterator.Iterator.t) (w : World e),
  exists (visited : list (option RKRConFrame)) (finished : bool)
         (it' : ConFrameIterator.Iterator.t) (w' : World e)
         (added : list event) (rest : list (option RKRConFrame)),
    for_each fuel last (it, w) = (Ok (visited, finished), (it', w'))
    /\ trace w' = trace w ++ added
    /\ visited ++ [held_handle it'] = held_handle it :: rest
    /\ map snd (filter is_fetch added) = map R_frame rest
    /\ filter is_request added = filter is_fetch added
    /\ filter is_release added = flat_map frame_release visited
    /\ (finished = true <-> ConFrameIterator.Iterator.current_frame_ it' = None)
    /\ (finished = false -> List.length visited = fuel)
    /\ (ConFrameIterator.Iterator.current_frame_ it = None \/ held_handle it <> None ->
        ~ In None visited).
Proof.
  intros Hlast.
  assert (Stop : forall (fuel : nat) (it : ConFrameIterator.Iterator.t) (w : World e),
             ConFrameIterator.Iterator.current_frame_ it = None ->
             for_each fuel last (it, w) = (Ok ([], true), (it, w))).
  { intros fuel it w Hcur.
    destruct fuel; cbn [for_each]; unfold bind, this, ret; cbn [fst snd];
      rewrite (differs_from_empty it last Hlast), Hcur; reflexivity. }
  induction fuel as [| fuel IH]; intros it w.
  - exists [], (negb (ConFrameIterator.Iterator.operator_ne it last)), it, w, [], [].
    split; [reflexivity |].
    split; [now rewrite app_nil_r |].
    repeat (split; [reflexivity |]).
    rewrite (differs_from_empty it last Hlast).
    destruct (ConFrameIterator.Iterator.current_frame_ it);
      cbn; repeat split; try congruence; try discriminate; intros _ [].
  - destruct (ConFrameIterator.Iterator.current_frame_ it) as [held |] eqn:Hcur.
    + destruct (fetch_next_frame_runs it w) as (it1 & w1 & Hrun & Htr & _ & Hcur1).
      cbv zeta in Hrun, Htr, Hcur1.
      assert (Hsound : ConFrameIterator.Iterator.current_frame_ it1 = None
                       \/ held_handle it1 <> None).
      { unfold held_handle. rewrite Hcur1.
        destruct (fst (on_con_frame_iterator_next e _ (eng w)));
          [right; discriminate | now left]. }
      apply held_handle_fetched in Hcur1.
      destruct (IH it1 w1)
        as (visited & finished & it' & w' & added & rest
            & Hloop & Htr' & Hvis & Hfetch & Hreq & Hrel & Hfin & Hfuel & Hnn).
      destruct (release_held_filters it) as (Frel & Ffetch & Freq).
      exists (held_handle it :: visited), finished, it', w',
        ((Call_con_frame_iterator_next (ConFrameIterator.Iterator.iterator_ptr_ it),
          R_frame (held_handle it1)) :: release_held it ++ added),
        (held_handle it1 :: rest).
      split.
      { cbn [for_each]. unfold bind at 1. unfold this at 1. cbn [fst snd].
        rewrite (differs_from_empty it last Hlast), Hcur.
        unfold bind at 1. unfold ConFrameIterator.Iterator.operator_incr.
        rewrite Hrun. unfold bind at 1. rewrite Hloop. reflexivity. }
      split.
      { rewrite Htr', Htr, Hcur1, <- app_assoc. reflexivity. }
      split; [cbn [app]; now rewrite Hvis |].
      split.
      { cbn [filter is_fetch fst]. rewrite filter_app, Ffetch. cbn [app map snd].
        now rewrite Hfetch. }
      split.
      { cbn [filter is_fetch is_request is_release fst negb].
        rewrite !filter_app, Ffetch, Freq. cbn [app]. now rewrite Hreq. }
      split.
      { cbn [filter is_release fst]. rewrite filter_app, Frel, Hrel. reflexivity. }
      split; [exact Hfin |].
      split; [intros Hf; cbn [List.length]; now rewrite (Hfuel Hf) |].
      intros [Habs | Hheld]; [congruence |].
      intros [Hin | Hin]; [now apply Hheld | now apply (Hnn Hsound)].
    + exists [], true, it, w, [], [].
      split; [now apply Stop |].
      split; [now rewrite app_nil_r |].
      repeat (split; [reflexivity |]).
      split; [split; [intros _; exact Hcur | reflexivity] |].
      split; [discriminate | intros _ []].
Qed.

(** X4.  The range-based for loop over a [ConFrameIterator] with a session,
    run for at most [fuel] rounds.  Its only requests to the engine are
    fetches, one more than the frames visited.  When it has ended, the frames
    visited are exactly the engine's replies before the null reply that ends
    the loop, in order, none of them null; each of them has been released,
    once and in the order visited, and nothing else has been released.  When
    the rounds ran out first, [fuel] frames were visited. *)
Theorem range_for_releases_what_it_visits {e : Engine} (fuel : nat)
    (c : ConFrameIterator.t) (p : CConFrameIterator) (w : World e) :
  ConFrameIterator.iterator_ptr_ c = Some p ->
  exists (visited : list (option RKRConFrame)) (finished : bool) (w' : World e)
         (added : list event),
    range_for fuel c w = (Ok (visited, finished), w')
    /\ trace w' = trace w ++ added
    /\ filter is_request added = filter is_fetch added
    /\ count is_fetch added = S (List.length visited)
    /\ ~ In None visited
    /\ (finished = false -> List.length visited = fuel)
    /\ (finished = true ->
        map snd (filter is_fetch added) = map R_frame (visited ++ [None])
        /\ filter is_release added = flat_map frame_release visited).
Proof.
  intros Hp. destruct c as [q]. cbn in Hp. subst q.
  destruct (Iterator_of_session p w) as (first & w1 & Hbegin & Htr1 & Hheld & Hnone & _).
  cbv zeta in Hbegin, Htr1, Hheld, Hnone.
  set (last := ConFrameIterator.Iterator.mk None None).
  destruct (for_each_runs last eq_refl fuel first w1)
    as (visited & finished & it' & w' & added & rest
        & Hloop & Htr & Hvis & Hfetch & Hreq & Hrel & Hfin & Hfuel & Hnn).
  assert (Hsound : ConFrameIterator.Iterator.current_frame_ first = None
                   \/ held_handle first <> None).
  { destruct (fst (on_con_frame_iterator_next e (Some p) (eng w))) as [h |].
    - right. rewrite Hheld. discriminate.
    - left. now apply Hnone. }
  assert (Hrun : range_for fuel (ConFrameIterator.mk (Some p)) w
                 = (Ok (visited, finished), w')).
  { unfold range_for, ConFrameIterator.begin, ConFrameIterator.end_.
    cbn [ConFrameIterator.iterator_ptr_].
    unfold bind at 1. rewrite Hbegin.
    unfold bind at 1. change (ConFrameIterator.Iterator.Iterator None w1) with (Ok last, w1).
    cbv beta iota. rewrite Hloop. cbn [snd].
    destruct finished; [| reflexivity].
    unfold bind, ConFrameIterator.Iterator.destroy, ret.
    cbn [last ConFrameIterator.Iterator.current_frame_].
    now rewrite (proj1 Hfin eq_refl). }
  exists visited, finished, w',
    ((Call_con_frame_iterator_next (Some p), R_frame (held_handle first)) :: added).
  split; [exact Hrun |].
  split; [rewrite Htr, Htr1, Hheld, <- app_assoc; reflexivity |].
  split; [cbn [filter is_fetch is_request is_release fst negb]; now rewrite Hreq |].
  split.
  { assert (Hlen : List.length (filter is_fetch added) = List.length visited).
    { pose proof (f_equal (@List.length _) Hfetch) as Hn.
      rewrite !length_map in Hn.
      apply (f_equal (@List.length _)) in Hvis.
      rewrite length_app in Hvis. simpl in Hvis.
      etransitivity; [exact Hn | lia]. }
    unfold count. cbn [filter is_fetch fst]. simpl. now rewrite Hlen. }
  split; [exact (Hnn Hsound) |].
  split; [exact Hfuel |].
  intros Hdone. apply Hfin in Hdone.
  split; [| exact Hrel].
  cbn [filter is_fetch fst map snd]. rewrite Hfetch.
  replace (visited ++ [None]) with (held_handle first :: rest); [reflexivity |].
  rewrite <- Hvis. unfold held_handle. now rewrite Hdone.
Qed.

Lemma range_for_on_two_con :
  exists (visited : list (option RKRConFrame)) (finished : bool)
         (w' : World Sim.engine) (added : list event),
    range_for 5 Fixtures.frames Fixtures.w1 = (Ok (visited, finished), w')
    /\ trace w' = trace Fixtures.w1 ++ added
    /\ filter is_request added = filter is_fetch added
    /\ count is_fetch added = S (List.length visited)
    /\ ~ In None visited
    /\ (finished = false -> List.length visited = 5)
    /\ (finished = true ->
        map snd (filter is_fetch added) = map R_frame (visited ++ [None])
        /\ filter is_release added = flat_map frame_release visited).
Proof.
  apply (range_for_releases_what_it_visits 5 Fixtures.frames 1%positive Fixtures.w1).
  reflexivity.
Defined.

(** Both frames of ["two.con"] are visited and released, and the loop ends on
    the third fetch. *)
Example two_con_is_drained :
  exists w',
    range_for 5 Fixtures.frames Fixtures.w1
    = (Ok ([Some 2%positive; Some 3%positive], true), w')
    /\ trace w'
       = trace Fixtures.w1
         ++ [(Call_con_frame_iterator_next (Some 1%positive), R_frame (Some 2%positive));
             (Call_con_frame_iterator_next (Some 1%positive), R_frame (Some 3%positive));
             (Call_free_rkr_frame 2%positive, R_void);
             (Call_con_frame_iterator_next (Some 1%positive), R_frame None);
             (Call_free_rkr_frame 3%positive, R_void)].
Proof. eexists. split; vm_compute; reflexivity. Qed.


(** ** A frame over many accessor calls *)

Lemma accesses_cached {e : Engine} (f : ConFrame.t) :
  ConFrame.is_cached_ f = true ->
  forall (l : list accessor) (w : World e),
    accesses l (f, w) = (map (fun a => Ok (cache_of a f)) l, (f, w)).
Proof.
  intros Hc. induction l as [| a l IH]; intros w; cbn [accesses map].
  - reflexivity.
  - rewrite (access_cached a f w Hc), IH. reflexivity.
Qed.

(** X5.  Any sequence of accessor calls on a freshly constructed frame, made
    by a caller that catches exceptions: some first calls throw (each after
    one snapshot query that returned null), and from the first call that
    succeeds on every call succeeds and returns the member of one and the
    same cached frame.  Over the whole sequence the engine is asked for the
    header lines at most once (four queries), and for the snapshot once per
    failed call and once more for the call that succeeded. *)
Theorem materialization_succeeds_at_most_once {e : Engine} (h : option RKRConFrame)
    (l : list accessor) :
  forall w : World e,
  exists (k : nat) (f1 f' : ConFrame.t) (w' : World e) (added : list event),
    accesses l (ConFrame.ConFrame h, w)
    = (map (fun _ => Throw "Failed to extract CFrame from handle for caching.") (firstn k l)
       ++ map (fun a => Ok (cache_of a f1)) (skipn k l),
       (f', w'))
    /\ k <= List.length l
    /\ trace w' = trace w ++ added
    /\ count is_snapshot_query added = (if Nat.ltb k (List.length l) then S k else k)
    /\ count is_header_query added = (if Nat.ltb k (List.length l) then 4 else 0)
    /\ f' = (if Nat.ltb k (List.length l) then f1 else ConFrame.ConFrame h).
Proof.
  set (f0 := ConFrame.ConFrame h).
  assert (Hf0 : ConFrame.is_cached_ f0 = false) by reflexivity.
  induction l as [| a l IH]; intros w.
  - exists 0, f0, f0, w, []. cbn. rewrite app_nil_r. repeat split. lia.
  - destruct (fst (on_rkr_frame_to_c_frame e (ConFrame.frame_handle_ f0) (eng w)))
      as [cf |] eqn:Hq.
    + destruct (cache_data_materializes f0 w cf Hf0 Hq)
        as (r1 & r2 & r3 & r4 & w1 & Hrun & Htr & _).
      exists 0, (materialized f0 cf r1 r2 r3 r4), (materialized f0 cf r1 r2 r3 r4), w1,
        (materialization_log (ConFrame.frame_handle_ f0) cf r1 r2 r3 r4).
      split.
      { cbn [accesses firstn skipn map app].
        rewrite (access_after_cache_data a _ _ _ _ Hrun).
        rewrite accesses_cached by reflexivity. reflexivity. }
      split; [cbn; lia |].
      split; [exact Htr |].
      unfold count.
      rewrite snapshot_queries_of_log, header_queries_of_log.
      repeat split.
    + destruct (cache_data_null_snapshot f0 w Hf0 Hq) as (w1 & Hrun & Htr & _).
      destruct (IH w1) as (k & f1 & f' & w' & added & Hrest & Hk & Htr' & Hs & Hh & Hf).
      exists (S k), f1, f', w',
        ((Call_rkr_frame_to_c_frame (ConFrame.frame_handle_ f0), R_c_frame None) :: added).
      split.
      { cbn [accesses firstn skipn map app].
        rewrite (access_cache_data_throws a _ _ _ _ _ Hrun), Hrest. reflexivity. }
      split; [cbn; lia |].
      split; [rewrite Htr', Htr, <- app_assoc; reflexivity |].
      change (Nat.ltb (S k) (List.length (a :: l))) with (Nat.ltb k (List.length l)).
      split; [| split; [exact Hh | exact Hf]].
      change (count is_snapshot_query
                ((Call_rkr_frame_to_c_frame (ConFrame.frame_handle_ f0), R_c_frame None) :: added))
        with (S (count is_snapshot_query added)).
      rewrite Hs. now destruct (Nat.ltb k (List.length l)).
Qed.

(** X6.  Moving a materialized frame.  The new object answers every accessor
    from the cache it took over, without a call to the engine.  The object
    moved from is still flagged as cached: its accessors neither throw nor
    ask the engine, [atoms()] returns an empty vector, and [cell()],
    [angles()] and [has_velocities()] return the values cached before.  Its
    destructor releases nothing; the handle goes with the new object. *)
Theorem moved_from_materialized_frame {e : Engine} (f : ConFrame.t) :
  ConFrame.is_cached_ f = true ->
  forall w : World e,
    let new := fst (ConFrame.move f) in
    let old := snd (ConFrame.move f) in
    (forall a : accessor, access a (new, w) = (Ok (cache_of a f), (new, w)))
    /\ access Acc_atoms (old, w) = (Ok (V_atoms []), (old, w))
    /\ access Acc_cell (old, w) = (Ok (V_array3 (ConFrame.cell_cache_ f)), (old, w))
    /\ access Acc_angles (old, w) = (Ok (V_array3 (ConFrame.angles_cache_ f)), (old, w))
    /\ access Acc_has_velocities (old, w)
       = (Ok (V_bool (ConFrame.has_velocities_cache_ f)), (old, w))
    /\ ConFrame.destroy old w = (Ok tt, w)
    /\ ConFrame.destroy new w = ConFrame.destroy f w
    /\ ConFrame.get_handle new = ConFrame.get_handle f
    /\ ConFrame.get_handle old = None.
Proof.
  intros Hc w. cbv zeta. cbn [ConFrame.move fst snd].
  split; [intros a; now apply access_cached |].
  repeat (split; [now rewrite access_cached by exact Hc |]).
  repeat split.
Qed.

Lemma moved_from_water_frame :
  (forall a : accessor,
      access a (fst (ConFrame.move Samples.water_frame), Fixtures.w2)
      = (Ok (cache_of a Samples.water_frame),
         (fst (ConFrame.move Samples.water_frame), Fixtures.w2)))
  /\ access Acc_atoms (snd (ConFrame.move Samples.water_frame), Fixtures.w2)
     = (Ok (V_atoms []), (snd (ConFrame.move Samples.water_frame), Fixtures.w2))
  /\ cache_of Acc_atoms Samples.water_frame
     = V_atoms (map ConFrame.atom_of [Fixtures.oxygen; Fixtures.hydrogen]).
Proof.
  destruct (moved_from_materialized_frame Samples.water_frame eq_refl Fixtures.w2)
    as (Hnew & Hold & _).
  split; [exact Hnew |].
  split; [exact Hold | reflexivity].
Defined.

(** ** Moving and filling a builder *)

(** X7.  Moving a builder never loses a handle and never releases one twice.
    After move construction the new object holds the handle and the source
    holds null, and destroying both does to the world exactly what
    destroying the original would have done.  Move assignment between two
    objects releases the handle the target held, gives the target the
    handle of the source and leaves the source null; assigning an object to
    itself changes nothing and calls nothing.  In every case, assignment
    followed by the destruction of the operands releases the handle of the
    target and then the handle of the source, each once when it is not
    null, which is what destroying the operands without the assignment
    does. *)
Theorem builder_moves_conserve_handles {e : Engine} (target other : ConFrameBuilder.t)
    (w : World e) :
  let new := fst (BuilderMove.move_construct other) in
  let old := snd (BuilderMove.move_construct other) in
  (ConFrameBuilder.builder_handle_ new = ConFrameBuilder.builder_handle_ other
   /\ ConFrameBuilder.builder_handle_ old = None
   /\ (ConFrameBuilder.destroy old ;; ConFrameBuilder.destroy new) w
      = ConFrameBuilder.destroy other w)
  /\ BuilderMove.move_assign (BuilderMove.Same target) w = (Ok (BuilderMove.Same target), w)
  /\ (exists (target' other' : ConFrameBuilder.t) (w1 w2 : World e),
        BuilderMove.move_assign (BuilderMove.Distinct target other) w
        = (Ok (BuilderMove.Distinct target' other'), w1)
        /\ ConFrameBuilder.builder_handle_ target' = ConFrameBuilder.builder_handle_ other
        /\ ConFrameBuilder.builder_handle_ other' = None
        /\ trace w1 = trace w ++ builder_release (ConFrameBuilder.builder_handle_ target)
        /\ BuilderMove.destroy_operands (BuilderMove.Distinct target' other') w1 = (Ok tt, w2)
        /\ trace w2
           = trace w ++ builder_release (ConFrameBuilder.builder_handle_ target)
                     ++ builder_release (ConFrameBuilder.builder_handle_ other)
        /\ BuilderMove.destroy_operands (BuilderMove.Distinct target other) w = (Ok tt, w2)).
Proof.
  cbv zeta. destruct target as [ht], other as [ho].
  split; [| split; [reflexivity |]].
  - cbn. repeat split.
  - unfold BuilderMove.move_assign, BuilderMove.destroy_operands, ConFrameBuilder.destroy,
      ConFrameBuilder.set_builder_handle_, builder_release, free_rkr_frame_builder,
      ffi_void, ffi, bind, ret.
    cbn [ConFrameBuilder.builder_handle_].
    destruct ht as [pt |], ho as [po |]; cbn;
      eexists _, _, _, _; repeat split; cbn; rewrite <- ?app_assoc, ?app_nil_r; reflexivity.
Qed.

Lemma add_runs {e : Engine} (a : addition) (b : ConFrameBuilder.t) (w : World e) :
  exists (rc : c_int) (w' : World e) (what : string),
    trace w' = trace w ++ [(call_of (ConFrameBuilder.builder_handle_ b) a, R_int rc)]
    /\ add a (b, w) = (if Z.eqb rc 0 then Ok tt else Throw what, (b, w')).
Proof.
  destruct a as [symbol px py pz fixed id m | symbol px py pz fixed id m pvx pvy pvz];
    unfold add, call_of, ConFrameBuilder.add_atom, ConFrameBuilder.add_atom_with_velocity,
      rkr_frame_add_atom, rkr_frame_add_atom_with_velocity, ffi, bind, this, extern, ret, throw;
    cbn [fst snd].
  - destruct (on_rkr_frame_add_atom e (ConFrameBuilder.builder_handle_ b)
                symbol px py pz fixed id m (eng w)) as [rc st].
    exists rc,
      (mkWorld st
         (trace w ++ [(Call_rkr_frame_add_atom (ConFrameBuilder.builder_handle_ b)
                         symbol px py pz fixed id m, R_int rc)])
         (next_addr w)),
      "Failed to add atom to frame builder.".
    split; [reflexivity |]. cbn [fst snd]. now destruct (Z.eqb rc 0).
  - destruct (on_rkr_frame_add_atom_with_velocity e (ConFrameBuilder.builder_handle_ b)
                symbol px py pz fixed id m pvx pvy pvz (eng w)) as [rc st].
    exists rc,
      (mkWorld st
         (trace w ++ [(Call_rkr_frame_add_atom_with_velocity
                         (ConFrameBuilder.builder_handle_ b)
                         symbol px py pz fixed id m pvx pvy pvz, R_int rc)])
         (next_addr w)),
      "Failed to add atom with velocity to frame builder.".
    split; [reflexivity |]. cbn [fst snd]. now destruct (Z.eqb rc 0).
Qed.

(** X8.  Any sequence of [add_atom] and [add_atom_with_velocity] calls on a
    builder leaves the builder's handle as it was.  The engine receives the
    atoms in the order of the calls, each with its arguments unchanged and
    all on that one handle.  The calls go on as long as the engine answers
    0; the first other answer makes that call throw, and no later atom is
    sent. *)
Theorem add_all_forwards_in_order {e : Engine} (b : ConFrameBuilder.t)
    (l : list addition) :
  forall w : World e,
  exists (r : result unit) (w' : World e) (added : list event) (k : nat),
    add_all l (b, w) = (r, (b, w'))
    /\ trace w' = trace w ++ added
    /\ map fst added = map (call_of (ConFrameBuilder.builder_handle_ b)) (firstn k l)
    /\ k <= List.length l
    /\ match r with
       | Ok _ => k = List.length l /\ Forall (fun ev => snd ev = R_int 0%Z) added
       | Throw _ =>
           exists (sent : list event) (refused : call) (rc : c_int),
             added = sent ++ [(refused, R_int rc)]
             /\ rc <> 0%Z
             /\ Forall (fun ev => snd ev = R_int 0%Z) sent
       end.
Proof.
  induction l as [| a l IH]; intros w.
  - exists (Ok tt), w, [], 0. cbn. rewrite app_nil_r. repeat split; constructor.
  - destruct (add_runs a b w) as (rc & w1 & what & Htr & Hrun).
    destruct (Z.eqb_spec rc 0) as [-> | Hrc].
    + destruct (IH w1) as (r & w' & added & k & Hrest & Htr' & Hcalls & Hk & Hr).
      exists r, w', ((call_of (ConFrameBuilder.builder_handle_ b) a, R_int 0%Z) :: added), (S k).
      split; [cbn [add_all]; unfold bind at 1; rewrite Hrun; exact Hrest |].
      split; [rewrite Htr', Htr, <- app_assoc; reflexivity |].
      split; [cbn [map firstn fst]; now rewrite Hcalls |].
      split; [cbn; lia |].
      destruct r as [[] | msg].
      * destruct Hr as (-> & Hall). split; [reflexivity | now constructor].
      * destruct Hr as (sent & refused & rc & -> & Hrc & Hall).
        exists ((call_of (ConFrameBuilder.builder_handle_ b) a, R_int 0%Z) :: sent), refused, rc.
        split; [reflexivity | split; [exact Hrc | now constructor]].
    + exists (Throw what), w1, [(call_of (ConFrameBuilder.builder_handle_ b) a, R_int rc)], 1.
      split; [cbn [add_all]; unfold bind at 1; now rewrite Hrun |].
      split; [exact Htr |].
      split; [reflexivity |].
      split; [cbn; lia |].
      exists [], (call_of (ConFrameBuilder.builder_handle_ b) a), rc.
      split; [reflexivity | split; [exact Hrc | constructor]].
Qed.

(** Three atoms on the builder of the fixtures: hydrogen is taken, an
    unknown species is refused, and the oxygen after it is never sent. *)
Example unknown_species_stops_the_adds :
  exists w',
    add_all [Plain "H" 0%Z 0%Z 0%Z false 1%N 1%Z;
             Plain "Xx" 1%Z 0%Z 0%Z false 2%N 1%Z;
             Plain "O" 2%Z 0%Z 0%Z false 3%N 16%Z] (Fixtures.builder, Fixtures.u2)
    = (Throw "Failed to add atom to frame builder.", (Fixtures.builder, w'))
    /\ trace w'
       = trace Fixtures.u2
         ++ [(Call_rkr_frame_add_atom (Some 1%positive) "H" 0%Z 0%Z 0%Z false 1%N 1%Z,
              R_int 0%Z);
             (Call_rkr_frame_add_atom (Some 1%positive) "Xx" 1%Z 0%Z 0%Z false 2%N 1%Z,
              R_int (-1)%Z)].
Proof. eexists. split; vm_compute; reflexivity. Qed.

(** Move assignment between the two builders of the samples, then both
    destructors: each of the two handles is released once. *)
Example two_builders_released_once :
  exists ops w1 w2,
    BuilderMove.move_assign (BuilderMove.Distinct Fixtures.builder Samples.second_builder)
                            Samples.two_builders
    = (Ok ops, w1)
    /\ BuilderMove.destroy_operands ops w1 = (Ok tt, w2)
    /\ trace w2
       = trace Samples.two_builders
         ++ [(Call_free_rkr_frame_builder 1%positive, R_void);
             (Call_free_rkr_frame_builder 2%positive, R_void)].
Proof. do 3 eexists. split; [| split]; vm_compute; reflexivity. Qed.

(** ** A writer and an iterator from construction to destruction *)

Lemma extend_runs {e : Engine} (wr : ConFrameWriter.t) (frames : list ConFrame.t)
    (w : World e) :
  nonempty frames = true ->
  exists (rc : c_int) (w' : World e),
    trace w'
    = trace w ++ [(Call_rkr_writer_extend (ConFrameWriter.writer_handle_ wr)
                     (map ConFrame.get_handle frames), R_int rc)]
    /\ ConFrameWriter.extend frames (wr, w)
       = (if Z.eqb rc 0 then Ok tt else Throw "Failed to write multiple frames.", (wr, w')).
Proof.
  destruct frames as [| f fs]; [discriminate |]. intros _.
  unfold ConFrameWriter.extend, rkr_writer_extend, ffi, bind, this, extern, ret, throw.
  cbn [fst snd]. rewrite collect_handles_map.
  destruct (on_rkr_writer_extend e (ConFrameWriter.writer_handle_ wr)
              (map ConFrame.get_handle (f :: fs)) (eng w)) as [rc st].
  exists rc,
    (mkWorld st
       (trace w ++ [(Call_rkr_writer_extend (ConFrameWriter.writer_handle_ wr)
                       (map ConFrame.get_handle (f :: fs)), R_int rc)])
       (next_addr w)).
  split; [reflexivity |]. cbn [fst snd]. now destruct (Z.eqb rc 0).
Qed.

Lemma extend_all_runs {e : Engine} (wr : ConFrameWriter.t) (batches : list (list ConFrame.t)) :
  forall w : World e,
  exists (r : result unit) (w' : World e) (added : list event) (k : nat),
    extend_all batches (wr, w) = (r, (wr, w'))
    /\ trace w' = trace w ++ added
    /\ map fst added
       = map (fun frames =>
                Call_rkr_writer_extend (ConFrameWriter.writer_handle_ wr)
                                       (map ConFrame.get_handle frames))
             (firstn k (filter nonempty batches))
    /\ k <= List.length (filter nonempty batches)
    /\ match r with
       | Ok _ =>
           k = List.length (filter nonempty batches)
           /\ Forall (fun ev => snd ev = R_int 0%Z) added
       | Throw what =>
           what = "Failed to write multiple frames."
           /\ exists (sent : list event) (refused : call) (rc : c_int),
                added = sent ++ [(refused, R_int rc)]
                /\ rc <> 0%Z
                /\ Forall (fun ev => snd ev = R_int 0%Z) sent
       end.
Proof.
  induction batches as [| frames batches IH]; intros w.
  - exists (Ok tt), w, [], 0. cbn. rewrite app_nil_r. repeat split; constructor.
  - destruct (nonempty frames) eqn:Hne.
    + destruct (extend_runs wr frames w Hne) as (rc & w1 & Htr & Hrun).
      destruct (Z.eqb_spec rc 0) as [-> | Hrc].
      * destruct (IH w1) as (r & w' & added & k & Hrest & Htr' & Hcalls & Hk & Hr).
        exists r, w',
          ((Call_rkr_writer_extend (ConFrameWriter.writer_handle_ wr)
              (map ConFrame.get_handle frames), R_int 0%Z) :: added), (S k).
        split; [cbn [extend_all]; unfold bind at 1; rewrite Hrun; exact Hrest |].
        split; [rewrite Htr', Htr, <- app_assoc; reflexivity |].
        cbn [filter]. rewrite Hne.
        split; [cbn [map firstn fst]; now rewrite Hcalls |].
        split; [cbn [List.length]; lia |].
        destruct r as [[] | what].
        -- destruct Hr as (-> & Hall). split; [reflexivity | now constructor].
        -- destruct Hr as (-> & sent & refused & rc & -> & Hrc & Hall).
           split; [reflexivity |].
           exists ((Call_rkr_writer_extend (ConFrameWriter.writer_handle_ wr)
                      (map ConFrame.get_handle frames), R_int 0%Z) :: sent), refused, rc.
           split; [reflexivity | split; [exact Hrc | now constructor]].
      * exists (Throw "Failed to write multiple frames."), w1,
          [(Call_rkr_writer_extend (ConFrameWriter.writer_handle_ wr)
              (map ConFrame.get_handle frames), R_int rc)], 1.
        split; [cbn [extend_all]; unfold bind at 1; now rewrite Hrun |].
        split; [exact Htr |].
        cbn [filter]. rewrite Hne.
        split; [reflexivity |].
        split; [cbn [List.length]; lia |].
        split; [reflexivity |].
        exists [], (Call_rkr_writer_extend (ConFrameWriter.writer_handle_ wr)
                      (map ConFrame.get_handle frames)), rc.
        split; [reflexivity | split; [exact Hrc | constructor]].
    + destruct frames; [| discriminate].
      destruct (IH w) as (r & w' & added & k & Hrest & Htr' & Hcalls & Hk & Hr).
      exists r, w', added, k.
      split; [cbn [extend_all]; unfold bind at 1; exact Hrest |].
      split; [exact Htr' |].
      cbn [filter nonempty]. split; [exact Hcalls |]. split; [exact Hk | exact Hr].
Qed.

(** X9.  A writer from construction to destruction.  The handle the
    constructor obtained is the handle of every [rkr_writer_extend] call:
    one call per non-empty batch, in the order of the batches and with the
    frames' handles in the order of each batch, and none for an empty batch.
    The calls go on as long as the engine answers 0: when all batches were
    written every reply was 0, and otherwise the [extend] that throws is the
    one whose call got the first reply other than 0, that call is the last
    one made and every reply before it was 0.  No [extend] changes the
    writer or releases anything, and the destructor releases that one
    handle, once. *)
Theorem writer_session_is_balanced {e : Engine} (path : string) (precision : uint8_t)
    (batches : list (list ConFrame.t)) (w w1 : World e) (wr : ConFrameWriter.t) :
  ConFrameWriter.ConFrameWriter path precision w = (Ok wr, w1) ->
  exists (h : RKRConFrameWriter) (r : result unit) (w2 w3 : World e)
         (added : list event) (k : nat),
    ConFrameWriter.writer_handle_ wr = Some h
    /\ extend_all batches (wr, w1) = (r, (wr, w2))
    /\ trace w2 = trace w1 ++ added
    /\ map fst added
       = map (fun frames => Call_rkr_writer_extend (Some h) (map ConFrame.get_handle frames))
             (firstn k (filter nonempty batches))
    /\ k <= List.length (filter nonempty batches)
    /\ match r with
       | Ok _ =>
           k = List.length (filter nonempty batches)
           /\ Forall (fun ev => snd ev = R_int 0%Z) added
       | Throw what =>
           what = "Failed to write multiple frames."
           /\ exists (sent : list event) (refused : call) (rc : c_int),
                added = sent ++ [(refused, R_int rc)]
                /\ rc <> 0%Z
                /\ Forall (fun ev => snd ev = R_int 0%Z) sent
       end
    /\ filter is_release added = []
    /\ ConFrameWriter.destroy wr w2 = (Ok tt, w3)
    /\ trace w3 = trace w2 ++ [(Call_free_rkr_writer h, R_void)].
Proof.
  intros Hnew.
  assert (Hh : exists h, wr = ConFrameWriter.mk (Some h)).
  { revert Hnew.
    unfold ConFrameWriter.ConFrameWriter, create_writer_from_path_c,
      create_writer_from_path_with_precision_c, ffi, bind, ret, throw.
    destruct (N.eqb precision 6);
      [destruct (on_create_writer_from_path_c e path (eng w)) as [[h |] st]
      | destruct (on_create_writer_from_path_with_precision_c e path precision (eng w))
          as [[h |] st]];
      intros [= <- _]; now exists h. }
  destruct Hh as (h & ->).
  destruct (extend_all_runs (ConFrameWriter.mk (Some h)) batches w1)
    as (r & w2 & added & k & Hrun & Htr & Hcalls & Hk & Hr).
  cbn [ConFrameWriter.writer_handle_] in Hcalls.
  exists h, r, w2. eexists. exists added, k.
  split; [reflexivity |].
  split; [exact Hrun |].
  split; [exact Htr |].
  split; [exact Hcalls |].
  split; [exact Hk |].
  split; [exact Hr |].
  split.
  - clear - Hcalls. revert Hcalls.
    generalize (firstn k (filter nonempty batches)) as sent.
    induction added as [| [c rp] added IH]; intros sent Hcalls; [reflexivity |].
    destruct sent as [| frames sent]; [discriminate |].
    cbn [map fst] in Hcalls. injection Hcalls as -> Hrest.
    cbn. now apply (IH sent).
  - split; reflexivity.
Qed.

(** Three batches on the writer of the fixtures: the first is written, the
    empty one makes no call, and the third, which names a frame without a
    handle, is refused. *)
Lemma writer_session_on_out_con :
  exists (w2 w3 : World Sim.engine),
    extend_all [[Fixtures.second_frame]; []; [Fixtures.first_frame; Fixtures.stale]]
               (Fixtures.writer, Fixtures.w4)
    = (Throw "Failed to write multiple frames.", (Fixtures.writer, w2))
    /\ trace w2
       = trace Fixtures.w4
         ++ [(Call_rkr_writer_extend (Some 4%positive) [Some 3%positive], R_int 0%Z);
             (Call_rkr_writer_extend (Some 4%positive) [Some 2%positive; None],
              R_int (-1)%Z)]
    /\ ConFrameWriter.destroy Fixtures.writer w2 = (Ok tt, w3)
    /\ trace w3 = trace w2 ++ [(Call_free_rkr_writer 4%positive, R_void)].
Proof.
  destruct (writer_session_is_balanced
              "out.con" ConFrameWriter.default_precision
              [[Fixtures.second_frame]; []; [Fixtures.first_frame; Fixtures.stale]]
              Fixtures.w2' Fixtures.w4 Fixtures.writer eq_refl)
    as (h & r & w2 & w3 & added & k & Hh & Hrun & Htr & _ & _ & _ & _ & Hd & Htr3).
  injection Hh as <-.
  exists w2, w3.
  assert (Hval : extend_all
                   [[Fixtures.second_frame]; []; [Fixtures.first_frame; Fixtures.stale]]
                   (Fixtures.writer, Fixtures.w4)
                 = (Throw "Failed to write multiple frames.",
                    (Fixtures.writer,
                     snd (snd (extend_all
                                 [[Fixtures.second_frame]; [];
                                  [Fixtures.first_frame; Fixtures.stale]]
                                 (Fixtures.writer, Fixtures.w4))))))
    by (vm_compute; reflexivity).
  rewrite Hval in Hrun. injection Hrun as <- <-.
  split; [exact Hval |].
  split; [vm_compute; reflexivity |].
  split; [exact Hd | exact Htr3].
Defined.

(** X10.  A [ConFrameIterator] from construction to destruction, with one
    [begin()] in between: the session is opened, one frame is requested on
    it, the frame that came back (if one did) is released when the position
    is destroyed, and the session is released when the [ConFrameIterator] is
    destroyed.  Each is released once, the frame before the session, and
    nothing else is called. *)
Theorem iterator_lifecycle_is_balanced {e : Engine} (path : string) (w w1 : World e)
    (c : ConFrameIterator.t) :
  ConFrameIterator.ConFrameIterator path w = (Ok c, w1) ->
  exists (p : CConFrameIterator) (it : ConFrameIterator.Iterator.t) (w2 w3 w4 : World e),
    ConFrameIterator.begin c w1 = (Ok it, w2)
    /\ ConFrameIterator.Iterator.destroy it w2 = (Ok tt, w3)
    /\ ConFrameIterator.destroy c w3 = (Ok tt, w4)
    /\ trace w4
       = trace w
         ++ [(Call_read_con_file_iterator path, R_iterator (Some p));
             (Call_con_frame_iterator_next (Some p), R_frame (held_handle it))]
         ++ frame_release (held_handle it)
         ++ [(Call_free_con_frame_iterator p, R_void)].
Proof.
  intros Hopen.
  destruct (ConFrameIterator_opens path w w1 c Hopen) as (p & -> & Htr).
  destruct (Iterator_of_session p w1) as (it & w2 & Hbegin & Htr2 & Hheld & _ & _).
  cbv zeta in Hbegin, Htr2, Hheld.
  assert (Hd : exists w3,
             ConFrameIterator.Iterator.destroy it w2 = (Ok tt, w3)
             /\ trace w3 = trace w2 ++ frame_release (held_handle it)).
  { unfold ConFrameIterator.Iterator.destroy, held_handle, frame_release,
      ConFrame.destroy, ConFrame.FrameDeleter, ConFrame.get_handle, free_rkr_frame,
      ffi_void, ffi, ret.
    destruct (ConFrameIterator.Iterator.current_frame_ it) as [[a [[q |] c1 c2 c3 c4 c5 c6 c7]] |];
      cbn; eexists; split; try reflexivity; cbn; now rewrite ?app_nil_r. }
  destruct Hd as (w3 & Hdestroy & Htr3).
  exists p, it, w2, w3. eexists.
  split; [exact Hbegin |].
  split; [exact Hdestroy |].
  split; [reflexivity |].
  cbn. rewrite Htr3, Htr2, Htr, Hheld, <- !app_assoc. reflexivity.
Qed.

Lemma iterator_lifecycle_on_two_con :
  exists (p : CConFrameIterator) (it : ConFrameIterator.Iterator.t)
         (w2 w3 w4 : World Sim.engine),
    ConFrameIterator.begin Fixtures.frames Fixtures.w1 = (Ok it, w2)
    /\ ConFrameIterator.Iterator.destroy it w2 = (Ok tt, w3)
    /\ ConFrameIterator.destroy Fixtures.frames w3 = (Ok tt, w4)
    /\ trace w4
       = trace Fixtures.w0
         ++ [(Call_read_con_file_iterator "two.con", R_iterator (Some p));
             (Call_con_frame_iterator_next (Some p), R_frame (held_handle it))]
         ++ frame_release (held_handle it)
         ++ [(Call_free_con_frame_iterator p, R_void)].
Proof.
  apply (iterator_lifecycle_is_balanced "two.con" Fixtures.w0 Fixtures.w1 Fixtures.frames).
  reflexivity.
Defined.
